(** * Saving and loading models, and the training loop

    A shallow embedding of the two notebooks of the repository:

    - "Part 6 - Saving and Loading Models": the cell that builds and saves
      the [checkpoint] dictionary and the function [load_checkpoint];
    - "Training Neural Networks": the single training step and the
      training loop over mini-batches.

    The notebooks are glue over an external framework (torch).  The
    framework is not part of the repository; the calls the notebooks make
    into it ([torch.save], [torch.load], [state_dict], [load_state_dict],
    [zero_grad], [forward], [backward], [step], ...) are modelled here at the
    level of their documented contract, and every such call is recorded in an
    event trace so that the order and the arguments of the calls can be
    stated. *)

From stdpp Require Import gmap strings list pretty.
From Stdlib Require Import ZArith QArith.

#[local] Set Warnings "-register-all".
#[local] Open Scope Z_scope.

(** ** Python values *)

(** A tensor: its [torch.Size] and its flattened elements.  The elements are
    kept as the integers that encode them (bit patterns of the floats); no
    operation of the notebooks' save/load code looks inside them. *)
Record tensor := Tensor { tshape : list nat; tdata : list Z }.

#[global] Instance tensor_eq_dec : EqDecision tensor.
Proof. solve_decision. Defined.

(** The Python objects that can sit in a checkpoint file: integers, lists,
    tensors, and dictionaries with string keys (both [dict] and
    [OrderedDict]; no claim depends on the order of the keys). *)
Inductive pyval :=
| PInt (n : Z)
| PList (l : list pyval)
| PTensor (t : tensor)
| PDict (d : gmap string pyval).

(** Exceptions, by Python class.  [RuntimeError_load_state_dict] is the
    error raised at the end of the framework's [load_state_dict]
    ("Error(s) in loading state_dict for Network: ..."): it lists the
    parameter names missing from the mapping, the names of the mapping that
    the model does not have, and one "size mismatch" entry
    (name, shape in the checkpoint, shape in the current model) per
    parameter whose saved shape differs. *)
Inductive exn :=
| FileNotFoundError (path : string)
| KeyError (key : string)
| TypeError
| IndexError
| AttributeError
| RuntimeError_negative_dimension
| RuntimeError_load_state_dict
    (missing_keys : list string)
    (unexpected_keys : gset string)
    (size_mismatch : list (string * list nat * list nat)).

Inductive result (A : Type) :=
| Ok (a : A)
| Raise (e : exn).
Arguments Ok {A} a.
Arguments Raise {A} e.

Definition is_Ok {A} (r : result A) : Prop :=
  match r with Ok _ => True | Raise _ => False end.

(** ** Modules of the framework *)

(** [nn.Linear(in_features, out_features)]: weight of shape
    [out_features x in_features] and bias of shape [out_features]. *)
Record Linear := {
  in_features : nat;
  out_features : nat;
  weight : tensor;
  bias : tensor
}.

(** The model class [fc_model.Network], as the notebook prints it:
    a [ModuleList] of hidden [Linear] layers, an [output] layer and a
    [Dropout(p=0.5)]. *)
Record network := {
  hidden_layers : list Linear;
  output : Linear;
  dropout : Q
}.

(** ** The world: files, generator state, and the trace of framework calls *)

Inductive event :=
| EvTorchSave (obj : pyval) (path : string)
| EvTorchLoad (path : string)
| EvNetwork (input_size output_size hidden_layers : pyval)
| EvStateDict (returned : pyval)
| EvLoadStateDict (state_dict : pyval).

Record world := {
  fs : gmap string pyval;    (* what torch.load finds under each path *)
  rng : N;                   (* number of modules initialised so far *)
  trace : list event         (* framework calls, oldest first *)
}.

Definition log (ev : event) (w : world) : world :=
  {| fs := fs w; rng := rng w; trace := trace w ++ [ev] |}.

(** Code that calls the framework: a state-and-exception monad.  The world
    after an exception is kept (what was written and called stays so). *)
Definition M (A : Type) : Type := world → result A * world.

Definition ret {A} (a : A) : M A := λ w, (Ok a, w).
Definition raise {A} (e : exn) : M A := λ w, (Raise e, w).
Definition bind {A B} (c : M A) (k : A → M B) : M B :=
  λ w, match c w with
       | (Ok a, w') => k a w'
       | (Raise e, w') => (Raise e, w')
       end.
Definition lift {A} (r : result A) : M A := λ w, (r, w).

Declare Scope py_scope.
Delimit Scope py_scope with py.
Notation "'let*' x ':=' c 'in' k" := (bind c (λ x, k))
  (at level 10, x name, c at level 100, k at level 200) : py_scope.

Definition bind_result {A B} (r : result A) (k : A → result B) : result B :=
  match r with Ok a => k a | Raise e => Raise e end.
Notation "'try*' x ':=' r 'in' k" := (bind_result r (λ x, k))
  (at level 10, x name, r at level 100, k at level 200) : py_scope.

#[local] Open Scope py_scope.

(** [torch.save(obj, path)] and [torch.load(path)]: the file holds the saved
    object, and loading a path gives back the object it holds. *)
Definition torch_save (obj : pyval) (path : string) : M unit :=
  λ w, (Ok tt,
        log (EvTorchSave obj path)
            {| fs := <[path := obj]> (fs w); rng := rng w; trace := trace w |}).

Definition torch_load (path : string) : M pyval :=
  λ w, match fs w !! path with
       | Some obj => (Ok obj, log (EvTorchLoad path) w)
       | None => (Raise (FileNotFoundError path), log (EvTorchLoad path) w)
       end.

(** [obj[key]] with a string key. *)
Definition subscript (obj : pyval) (key : string) : result pyval :=
  match obj with
  | PDict d =>
      match d !! key with
      | Some v => Ok v
      | None => Raise (KeyError key)
      end
  | PInt _ | PList _ => Raise TypeError
  | PTensor _ => Raise IndexError
  end.

(** ** Parameter names and the state dict *)

Definition hidden_prefix (i : nat) : string :=
  "hidden_layers." +:+ pretty i +:+ ".".

Definition Linear_parameters (prefix : string) (l : Linear)
  : list (string * tensor) :=
  [(prefix +:+ "weight", weight l); (prefix +:+ "bias", bias l)].

Fixpoint hidden_parameters (i : nat) (ls : list Linear)
  : list (string * tensor) :=
  match ls with
  | [] => []
  | l :: ls' =>
      Linear_parameters (hidden_prefix i) l ++ hidden_parameters (S i) ls'
  end.

(** The named parameters of a model, in the order the notebook prints the
    keys: [hidden_layers.0.weight], [hidden_layers.0.bias], ...,
    [output.weight], [output.bias]. *)
Definition named_parameters (m : network) : list (string * tensor) :=
  hidden_parameters 0 (hidden_layers m) ++ Linear_parameters "output." (output m).

Definition parameter_map (m : network) : gmap string tensor :=
  list_to_map (named_parameters m).

(** [model.state_dict()]: the mapping from parameter name to tensor. *)
Definition state_dict (m : network) : pyval :=
  PDict (PTensor <$> parameter_map m).

Definition state_dict_call (m : network) : M pyval :=
  λ w, (Ok (state_dict m), log (EvStateDict (state_dict m)) w).

(** ** Constructing a model *)

(** A size handed to the framework must be an [int], and a tensor cannot
    have a negative dimension. *)
Definition as_dim (v : pyval) : result nat :=
  match v with
  | PInt n => if n <? 0 then Raise RuntimeError_negative_dimension
              else Ok (Z.to_nat n)
  | _ => Raise TypeError
  end.

Section Saving_and_loading.

(** The values a freshly constructed parameter starts with: the framework
    draws them at random.  [init n name shape] stands for the elements
    drawn for the parameter [name] of the [n]-th module constructed. *)
Variable init : N → string → list nat → list Z.

(** A fresh layer with [i] inputs and [o] outputs. *)
Definition fresh_Linear (n : N) (prefix : string) (i o : nat) : Linear :=
  {| in_features := i;
     out_features := o;
     weight := Tensor [o; i] (init n (prefix +:+ "weight") [o; i]);
     bias := Tensor [o] (init n (prefix +:+ "bias") [o]) |}.

(** [nn.Linear(in_features, out_features)] *)
Definition Linear_new (n : N) (prefix : string) (in_v out_v : pyval)
  : result Linear :=
  try* i := as_dim in_v in
  try* o := as_dim out_v in
  Ok (fresh_Linear n prefix i o).

(** The hidden layers: layer [i] maps the previous width ([input_size]
    for the first layer) to the [i]-th hidden width. *)
Fixpoint build_hidden (n : N) (i : nat) (prev : pyval) (widths : list pyval)
  : result (list Linear) :=
  match widths with
  | [] => Ok []
  | h :: widths' =>
      try* l := Linear_new n (hidden_prefix i) prev h in
      try* ls := build_hidden n (S i) h widths' in
      Ok (l :: ls)
  end.

(** Modelled from the spec: the class [fc_model.Network] is defined in a
    file of the repository that is not among the sources.  The spec has
    it "construct an object from three configuration values"; the object
    is taken from what the notebook prints for a constructed model:
    hidden layer 0 is [Linear(input_size, hidden_layers[0])], hidden layer
    [i+1] is [Linear(hidden_layers[i], hidden_layers[i+1])], the output
    layer is [Linear(hidden_layers[-1], output_size)], and dropout has
    [p=0.5].  The first and the last hidden width are indexed, so
    [hidden_layers] must be a non-empty list. *)
Definition build_network (n : N) (input_size output_size hidden_layers : pyval)
  : result network :=
  match hidden_layers with
  | PList [] => Raise IndexError
  | PList (h0 :: hs) =>
      try* hidden := build_hidden n 0 input_size (h0 :: hs) in
      try* out := Linear_new n "output." (List.last hs h0) output_size in
      Ok {| hidden_layers := hidden; output := out; dropout := 1 # 2 |}
  | _ => Raise TypeError
  end.

(** The call [fc_model.Network(input_size, output_size, hidden_layers)]. *)
Definition Network (input_size output_size hidden_layers : pyval) : M network :=
  λ w,
    let w1 := log (EvNetwork input_size output_size hidden_layers) w in
    match build_network (rng w) input_size output_size hidden_layers with
    | Ok m =>
        (Ok m, {| fs := fs w1; rng := N.succ (rng w1); trace := trace w1 |})
    | Raise e => (Raise e, w1)
    end.

(** ** Restoring parameters: [model.load_state_dict(state_dict)] *)

(** What the framework finds for one parameter of the model. *)
Inductive param_check :=
| Loaded (t : tensor)
| SizeMismatch (saved current : list nat)
| MissingKey
| NotATensor.

Definition check_param (sd : gmap string pyval) (key : string) (param : tensor)
  : param_check :=
  match sd !! key with
  | None => MissingKey
  | Some (PTensor t) =>
      if decide (tshape t = tshape param) then Loaded t
      else SizeMismatch (tshape t) (tshape param)
  | Some _ => NotATensor
  end.

(** [param.copy_(input_param)] when the saved tensor was accepted. *)
Definition copy_param (sd : gmap string pyval) (key : string) (param : tensor)
  : tensor :=
  match check_param sd key param with
  | Loaded t => t
  | _ => param
  end.

Definition load_Linear (sd : gmap string pyval) (prefix : string) (l : Linear)
  : Linear :=
  {| in_features := in_features l;
     out_features := out_features l;
     weight := copy_param sd (prefix +:+ "weight") (weight l);
     bias := copy_param sd (prefix +:+ "bias") (bias l) |}.

Fixpoint load_hidden (sd : gmap string pyval) (i : nat) (ls : list Linear)
  : list Linear :=
  match ls with
  | [] => []
  | l :: ls' => load_Linear sd (hidden_prefix i) l :: load_hidden sd (S i) ls'
  end.

Definition load_network (sd : gmap string pyval) (m : network) : network :=
  {| hidden_layers := load_hidden sd 0 (hidden_layers m);
     output := load_Linear sd "output." (output m);
     dropout := dropout m |}.

Definition missing_keys_of (sd : gmap string pyval)
    (params : list (string * tensor)) : list string :=
  omap (λ '(key, param),
          match check_param sd key param with
          | MissingKey => Some key
          | _ => None
          end) params.

Definition size_mismatches_of (sd : gmap string pyval)
    (params : list (string * tensor)) : list (string * list nat * list nat) :=
  omap (λ '(key, param),
          match check_param sd key param with
          | SizeMismatch saved current => Some (key, saved, current)
          | _ => None
          end) params.

Definition not_a_tensor (sd : gmap string pyval)
    (params : list (string * tensor)) : bool :=
  existsb (λ '(key, param),
             match check_param sd key param with
             | NotATensor => true
             | _ => false
             end) params.

Definition unexpected_keys_of (sd : gmap string pyval)
    (params : list (string * tensor)) : gset string :=
  dom sd ∖ list_to_set params.*1.

(** The framework's strict restore (the default, and the one the notebook
    calls): every parameter of the model is looked up by name in the
    mapping; a saved tensor is copied into the parameter when the shapes
    are equal and reported as a size mismatch otherwise; names the
    mapping lacks, and names of the mapping the model does not have, are
    reported too; any report makes the call raise.  A mapping that is not
    a dictionary, or holds something that has no shape under a parameter
    name, fails on the attribute access. *)
Definition load_state_dict_result (m : network) (state_dict : pyval)
  : result network :=
  match state_dict with
  | PDict sd =>
      let params := named_parameters m in
      if not_a_tensor sd params then Raise AttributeError
      else
        let missing := missing_keys_of sd params in
        let unexpected := unexpected_keys_of sd params in
        let mismatch := size_mismatches_of sd params in
        if decide (missing = [] ∧ unexpected = ∅ ∧ mismatch = [])
        then Ok (load_network sd m)
        else Raise (RuntimeError_load_state_dict missing unexpected mismatch)
  | _ => Raise AttributeError
  end.

Definition load_state_dict (m : network) (state_dict : pyval) : M network :=
  λ w, (load_state_dict_result m state_dict, log (EvLoadStateDict state_dict) w).

(** ** The notebook's code *)

(** The cell that builds and saves the checkpoint:
<<
    checkpoint = {'input_size': 784,
                  'output_size': 10,
                  'hidden_layers': [each.out_features for each in model.hidden_layers],
                  'state_dict': model.state_dict()}
    torch.save(checkpoint, 'checkpoint.pth')
>> *)
Definition checkpoint_dict (model : network) (sd : pyval)
  : gmap string pyval :=
  <["input_size" := PInt 784]>
    (<["output_size" := PInt 10]>
       (<["hidden_layers" :=
            PList ((λ each, PInt (Z.of_nat (out_features each)))
                     <$> hidden_layers model)]>
          (<["state_dict" := sd]> ∅))).

Definition checkpoint (model : network) (sd : pyval) : pyval :=
  PDict (checkpoint_dict model sd).

Definition save_checkpoint (model : network) : M unit :=
  let* sd := state_dict_call model in
  let checkpoint := checkpoint model sd in
  torch_save checkpoint "checkpoint.pth".

(**
<<
    def load_checkpoint(filepath):
        checkpoint = torch.load(filepath)
        model = fc_model.Network(checkpoint['input_size'],
                                 checkpoint['output_size'],
                                 checkpoint['hidden_layers'])
        model.load_state_dict(checkpoint['state_dict'])
        return model
>> *)
Definition load_checkpoint (filepath : string) : M network :=
  let* checkpoint := torch_load filepath in
  let* input_size := lift (subscript checkpoint "input_size") in
  let* output_size := lift (subscript checkpoint "output_size") in
  let* hidden_layers := lift (subscript checkpoint "hidden_layers") in
  let* model := Network input_size output_size hidden_layers in
  let* state_dict := lift (subscript checkpoint "state_dict") in
  let* model := load_state_dict model state_dict in
  ret model.

End Saving_and_loading.

(** ** The training notebook *)

Definition epochs : Z := 3.
Definition print_every : Z := 40.

Section Training.

(** The framework's side of training.  Batches, network outputs and
    losses are tensors of the framework; [Fw] is everything the framework
    keeps between calls (the parameters of [model], their accumulated
    gradients, the state of [optimizer]).  [float] is the type of Python
    floats with its addition and its division by an [int]; the order of
    the additions is kept as the loop performs them. *)
Variables Images Labels Output Loss Fw float : Type.
Variable size0 : Images → nat.                    (* images.size()[0] *)
Variable resize_ : Images → nat → nat → Images.   (* images.resize_(r, c) *)
Variable zero_grad : Fw → Fw.                     (* optimizer.zero_grad() *)
Variable forward : Fw → Images → Output.          (* model.forward(images) *)
Variable criterion : Output → Labels → Loss.      (* criterion(output, labels) *)
Variable backward : Loss → Fw → Fw.               (* loss.backward() *)
Variable step : Fw → Fw.                          (* optimizer.step() *)
Variable item : Loss → float.                     (* loss.item() *)
Variable fzero : float.
Variable fadd : float → float → float.
Variable fdiv : float → Z → float.

(** The calls into the framework, with their arguments. *)
Inductive call :=
| CallResize (rows cols : nat)
| CallZeroGrad
| CallForward (images : Images)
| CallCriterion (output : Output) (labels : Labels)
| CallBackward (loss : Loss)
| CallStep.

(** The steps of one pass over a batch, as the single training step cell
    and the body of the training loop both write them:
<<
    images.resize_(rows, 784)
    optimizer.zero_grad()
    output = model.forward(images)
    loss = criterion(output, labels)
    loss.backward()
    optimizer.step()
>>
    It returns the loss, the framework state after [step], and the calls
    made, oldest first. *)
Definition training_step (rows : nat) (images : Images) (labels : Labels)
    (fw : Fw) : Loss * Fw * list call :=
  let images := resize_ images rows 784 in
  let fw := zero_grad fw in
  let output := forward fw images in
  let loss := criterion output labels in
  let fw := backward loss fw in
  let fw := step fw in
  (loss, fw,
   [CallResize rows 784; CallZeroGrad; CallForward images;
    CallCriterion output labels; CallBackward loss; CallStep]).

(** The single training step cell: the first batch, resized to 64 x 784. *)
Definition single_training_step (images : Images) (labels : Labels) (fw : Fw)
  : Loss * Fw * list call :=
  training_step 64 images labels fw.

(** The variables of the training loop, the calls made so far and the
    lines printed so far (epoch number, [epochs], printed loss value).
    [running_loss] starts as the integer 0 and becomes a float with the
    first addition; [fzero] stands for that zero. *)
Record loop_state := {
  framework : Fw;
  steps : Z;
  running_loss : float;
  calls : list call;
  printed : list (Z * Z * float)
}.

(** The body of the inner loop:
<<
    steps += 1
    images.resize_(images.size()[0], 784)
    optimizer.zero_grad()
    output = model.forward(images)
    loss = criterion(output, labels)
    loss.backward()
    optimizer.step()
    running_loss += loss.item()
    if steps % print_every == 0:
        print("Epoch: {}/{}... ".format(e+1, epochs),
              "Loss: {:.4f}".format(running_loss/print_every))
        running_loss = 0
>> *)
Definition loop_body (e : nat) (s : loop_state) (batch : Images * Labels)
  : loop_state :=
  let '(images, labels) := batch in
  let steps' := steps s + 1 in
  let '(loss, fw, cs) :=
    training_step (size0 images) images labels (framework s) in
  let running_loss' := fadd (running_loss s) (item loss) in
  if steps' `mod` print_every =? 0 then
    {| framework := fw;
       steps := steps';
       running_loss := fzero;
       calls := calls s ++ cs;
       printed := printed s ++
                  [(Z.of_nat e + 1, epochs, fdiv running_loss' print_every)] |}
  else
    {| framework := fw;
       steps := steps';
       running_loss := running_loss';
       calls := calls s ++ cs;
       printed := printed s |}.

(** One epoch: [running_loss = 0], then the inner loop over the batches
    the loader yields. *)
Definition run_epoch (trainloader : nat → list (Images * Labels))
    (s : loop_state) (e : nat) : loop_state :=
  let s0 := {| framework := framework s;
               steps := steps s;
               running_loss := fzero;
               calls := calls s;
               printed := printed s |} in
  fold_left (loop_body e) (trainloader e) s0.

(** The whole cell: [epochs = 3], [print_every = 40], [steps = 0], then
    the loop over [range(epochs)].  [trainloader e] is the sequence of
    batches that [iter(trainloader)] yields in epoch [e]; [epochs_run n]
    is the state after the first [n] epochs. *)
Definition loop_start (fw : Fw) : loop_state :=
  {| framework := fw;
     steps := 0;
     running_loss := fzero;
     calls := [];
     printed := [] |}.

Definition epochs_run (trainloader : nat → list (Images * Labels))
    (fw : Fw) (n : nat) : loop_state :=
  fold_left (run_epoch trainloader) (seq 0 n) (loop_start fw).

Definition training_loop (trainloader : nat → list (Images * Labels))
    (fw : Fw) : loop_state :=
  epochs_run trainloader fw (Z.to_nat epochs).

(** The number of batches of the epochs before epoch [e]. *)
Definition steps_before (trainloader : nat → list (Images * Labels))
    (e : nat) : nat :=
  sum_list_with (λ e', length (trainloader e')) (seq 0 e).

(** The number of batches from the start of epoch [e] up to the first
    step count that is a multiple of [print_every]. *)
Definition first_window (trainloader : nat → list (Images * Labels))
    (e : nat) : nat :=
  (40 - steps_before trainloader e `mod` 40)%nat.

(** The loss of a batch, as the loop body computes it in framework state
    [fw]. *)
Definition loss_of (fw : Fw) (images : Images) (labels : Labels) : float :=
  item (criterion (forward (zero_grad fw) (resize_ images (size0 images) 784))
          labels).

(** The losses of the batches of an epoch that starts in framework state
    [fw], in the order of the batches. *)
Fixpoint batch_losses (bs : list (Images * Labels)) (fw : Fw) : list float :=
  match bs with
  | [] => []
  | (images, labels) :: bs' =>
      let '(loss, fw', _) := training_step (size0 images) images labels fw in
      item loss :: batch_losses bs' fw'
  end.

(** [running_loss] after adding the given losses to it, one by one. *)
Definition accumulate (acc : float) (losses : list float) : float :=
  fold_left fadd losses acc.

(** The first line printed for a given epoch number. *)
Definition first_printed (epoch : Z) (out : list (Z * Z * float))
  : option float :=
  match filter (λ line, line.1.1 = epoch) out with
  | [] => None
  | line :: _ => Some line.2
  end.

(** The kinds of the calls, to state their order. *)
Inductive call_kind :=
| Resize | ZeroGrad | Forward | Criterion | Backward | Step.

Definition kind_of (c : call) : call_kind :=
  match c with
  | CallResize _ _ => Resize
  | CallZeroGrad => ZeroGrad
  | CallForward _ => Forward
  | CallCriterion _ _ => Criterion
  | CallBackward _ => Backward
  | CallStep => Step
  end.

Definition step_order : list call_kind :=
  [Resize; ZeroGrad; Forward; Criterion; Backward; Step].

End Training.

Arguments CallResize {Images Labels Output Loss} rows cols.
Arguments CallZeroGrad {Images Labels Output Loss}.
Arguments CallForward {Images Labels Output Loss} images.
Arguments CallCriterion {Images Labels Output Loss} output labels.
Arguments CallBackward {Images Labels Output Loss} loss.
Arguments CallStep {Images Labels Output Loss}.
Arguments kind_of {Images Labels Output Loss} c.
Arguments framework {Images Labels Output Loss Fw float} l.
Arguments steps {Images Labels Output Loss Fw float} l.
Arguments running_loss {Images Labels Output Loss Fw float} l.
Arguments calls {Images Labels Output Loss Fw float} l.
Arguments printed {Images Labels Output Loss Fw float} l.
Arguments first_printed {float} epoch out.
Arguments steps_before {Images Labels} trainloader e.
Arguments first_window {Images Labels} trainloader e.
Arguments accumulate {float} fadd acc losses.

(** The loop with exact arithmetic on the losses: [float] is taken to be
    the rationals, so that printed values can be compared. *)
Definition Qdiv_int (x : Q) (n : Z) : Q := (x / inject_Z n)%Q.

Definition mean (losses : list Q) : Q :=
  (accumulate Qplus 0 losses / inject_Z (Z.of_nat (length losses)))%Q.

(** ** Models as the constructor makes them *)

#[global] Instance Q_eq_dec : EqDecision Q.
Proof. solve_decision. Defined.

(** A layer whose tensors have the shapes of its [in_features] and
    [out_features]. *)
Definition Linear_ok (l : Linear) : bool :=
  bool_decide (tshape (weight l) = [out_features l; in_features l])
  && bool_decide (tshape (bias l) = [out_features l]).

(** Each layer takes what the previous one gives. *)
Fixpoint chained (prev : nat) (ls : list Linear) : bool :=
  match ls with
  | [] => true
  | l :: ls' =>
      bool_decide (in_features l = prev) && Linear_ok l
      && chained (out_features l) ls'
  end.

(** The invariant of every [Network] object: constructed with at least one
    hidden layer, layers chained, output layer fed by the last hidden
    layer, dropout 0.5.  Training changes the elements of the parameter
    tensors and nothing else. *)
Definition network_ok (m : network) : bool :=
  match hidden_layers m with
  | [] => false
  | l0 :: ls =>
      chained (in_features l0) (l0 :: ls)
      && Linear_ok (output m)
      && bool_decide (in_features (output m)
                      = List.last (out_features <$> ls) (out_features l0))
      && bool_decide (dropout m = 1 # 2)
  end.

(** The hidden layers the constructor makes from widths that are valid
    sizes: what [build_hidden] returns on them. *)
Fixpoint fresh_hidden (init : N → string → list nat → list Z) (n : N)
    (i : nat) (prev : nat) (widths : list nat) : list Linear :=
  match widths with
  | [] => []
  | h :: widths' =>
      fresh_Linear init n (hidden_prefix i) prev h
      :: fresh_hidden init n (S i) h widths'
  end.

(** Two layers, and two models, of one architecture: the same sizes and the
    same parameter shapes, whatever the elements of the parameters. *)
Definition same_Linear_arch (l1 l2 : Linear) : Prop :=
  in_features l1 = in_features l2 ∧ out_features l1 = out_features l2
  ∧ tshape (weight l1) = tshape (weight l2)
  ∧ tshape (bias l1) = tshape (bias l2).

Definition same_arch (m1 m2 : network) : Prop :=
  Forall2 same_Linear_arch (hidden_layers m1) (hidden_layers m2)
  ∧ same_Linear_arch (output m1) (output m2)
  ∧ dropout m1 = dropout m2.

(** The shapes of a mapping from names to tensors. *)
Definition shapes (sd : gmap string tensor) : gmap string (list nat) :=
  tshape <$> sd.

(** The input and output dimensions a model really has. *)
Definition input_size_of (m : network) : nat :=
  match hidden_layers m with
  | l0 :: _ => in_features l0
  | [] => in_features (output m)
  end.

Definition output_size_of (m : network) : nat := out_features (output m).

(** The architecture of a model: what the notebook prints for it. *)
Definition architecture (m : network) : list (nat * nat) * (nat * nat) * Q :=
  ((λ l, (in_features l, out_features l)) <$> hidden_layers m,
   (in_features (output m), out_features (output m)),
   dropout m).

(** The first component of a run is its outcome, the second the world it
    leaves. *)
Definition outcome {A} (r : result A * world) : result A := r.1.
Definition world_after {A} (r : result A * world) : world := r.2.

(** The four keys of a checkpoint record. *)
Definition checkpoint_keys : gset string :=
  {[ "input_size"; "output_size"; "hidden_layers"; "state_dict" ]}.

(** A size-mismatch error: the framework's error of the restore with at
    least one "size mismatch" entry. *)
Definition is_size_mismatch_error (e : exn) : Prop :=
  match e with
  | RuntimeError_load_state_dict _ _ mismatch => mismatch ≠ []
  | _ => False
  end.

Definition is_KeyError (e : exn) : Prop :=
  match e with KeyError _ => True | _ => False end.

(** ** Concrete models, files and loaders, for the examples *)

(** An initialiser that fills every new parameter with zeros. *)
Definition zero_init (n : N) (name : string) (shape : list nat) : list Z :=
  repeat 0 (foldr Nat.mul 1%nat shape).

Definition world0 : world := {| fs := ∅; rng := 0; trace := [] |}.

(** Models as [Network(784, 10, [2])] and [Network(20, 10, [5])] make them. *)
Definition model_784_2_10 : network :=
  {| hidden_layers := fresh_hidden zero_init 0 0 784 [2%nat];
     output := fresh_Linear zero_init 0 "output." 2 10;
     dropout := 1 # 2 |}.

Definition model_20_5_10 : network :=
  {| hidden_layers := fresh_hidden zero_init 0 0 20 [5%nat];
     output := fresh_Linear zero_init 0 "output." 5 10;
     dropout := 1 # 2 |}.

(** What [Network(784, 10, [5])] constructs in a new world. *)
Definition model_784_5_10 : network :=
  {| hidden_layers := fresh_hidden zero_init 0 0 784 [5%nat];
     output := fresh_Linear zero_init 0 "output." 5 10;
     dropout := 1 # 2 |}.

(** A run of the training loop in which every batch has loss 1, on a loader
    that yields [n] batches in every epoch. *)
Definition constant_loader (n : nat) : nat → list (unit * unit) :=
  λ _, replicate n (tt, tt).

Definition constant_loss_run (n : nat)
  : loop_state unit unit unit Q unit Q :=
  training_loop unit unit unit Q unit Q
    (λ _, 64%nat) (λ images _ _, images) (λ fw, fw) (λ _ _, tt)
    (λ _ _, 1%Q) (λ _ fw, fw) (λ fw, fw) (λ loss, loss)
    0%Q Qplus Qdiv_int (constant_loader n) tt.

Definition constant_losses (n : nat) : list Q :=
  batch_losses unit unit unit Q unit Q
    (λ _, 64%nat) (λ images _ _, images) (λ fw, fw) (λ _ _, tt)
    (λ _ _, 1%Q) (λ _ fw, fw) (λ fw, fw) (λ loss, loss)
    (constant_loader n 1%nat) tt.

(** A world whose ['checkpoint.pth'] holds the given object. *)
Definition world_with (obj : pyval) : world :=
  {| fs := {[ "checkpoint.pth" := obj ]}; rng := 0; trace := [] |}.

(** A record that agrees with the model whose state dict it holds. *)
Definition dict_20_5_10 : gmap string pyval :=
  <["input_size" := PInt 20]>
    (<["output_size" := PInt 10]>
       (<["hidden_layers" := PList [PInt 5]]>
          (<["state_dict" := state_dict model_20_5_10]> ∅))).

(** Records without the key ['state_dict'] whose configuration the
    constructor rejects: no hidden widths, and an [int] for the widths. *)
Definition record_no_widths : pyval :=
  PDict (<["input_size" := PInt 784]>
         (<["output_size" := PInt 10]>
          (<["hidden_layers" := PList []]> ∅))).

Definition record_int_widths : pyval :=
  PDict (<["input_size" := PInt 784]>
         (<["output_size" := PInt 10]>
          (<["hidden_layers" := PInt 5]> ∅))).

(** ** The cells that save and load a bare state dict *)

(** [torch.save(model.state_dict(), 'checkpoint.pth')] *)
Definition save_state_dict (model : network) : M unit :=
  let* sd := state_dict_call model in
  torch_save sd "checkpoint.pth".

(** [obj.keys()]; the order of the keys is not kept. *)
Definition keys (obj : pyval) : result (gset string) :=
  match obj with
  | PDict d => Ok (dom d)
  | _ => Raise AttributeError
  end.

(**
<<
    state_dict = torch.load('checkpoint.pth')
    print(state_dict.keys())
>>
    It returns the loaded object and what it prints. *)
Definition load_saved_state_dict : M (pyval * gset string) :=
  let* state_dict := torch_load "checkpoint.pth" in
  let* printed := lift (keys state_dict) in
  ret (state_dict, printed).

(** The three cells in a row: save the state dict of [model], load it, and
    restore it into the same [model] with
    [model.load_state_dict(state_dict)]. *)
Definition save_load_restore (model : network) : M (network * gset string) :=
  let* _ := save_state_dict model in
  let* loaded := load_saved_state_dict in
  let* model := load_state_dict model loaded.1 in
  ret (model, loaded.2).

(** The cell that tries to restore into a model of another architecture:
<<
    model = fc_model.Network(784, 10, [400, 200, 100])
    model.load_state_dict(state_dict)
>> *)
Definition restore_into_other_model
    (init : N → string → list nat → list Z) (state_dict : pyval) : M network :=
  let* model := Network init (PInt 784) (PInt 10)
                  (PList [PInt 400; PInt 200; PInt 100]) in
  load_state_dict model state_dict.

(** The architecture of [fc_model.Network(784, 10, [512, 256, 128])], the
    model the notebook trains and saves. *)
Definition trained_architecture : list (nat * nat) * (nat * nat) * Q :=
  ([(784, 512); (512, 256); (256, 128)]%nat, (128, 10)%nat, 1 # 2).

(** An initialiser that gives parameters no elements, for examples where
    only the shapes matter. *)
Definition no_data (n : N) (name : string) (shape : list nat) : list Z := [].

Definition model_784_512_256_128_10 : network :=
  {| hidden_layers := fresh_hidden no_data 0 0 784 [512; 256; 128]%nat;
     output := fresh_Linear no_data 0 "output." 128 10;
     dropout := 1 # 2 |}.

(** ** More of the training loop *)

Section Training_updates.
Variables Images Labels Output Loss Fw : Type.
Variable size0 : Images → nat.
Variable resize_ : Images → nat → nat → Images.
Variable zero_grad : Fw → Fw.
Variable forward : Fw → Images → Output.
Variable criterion : Output → Labels → Loss.
Variable backward : Loss → Fw → Fw.
Variable step : Fw → Fw.

(** The framework state after the pass of the loop body over one batch. *)
Definition batch_update (fw : Fw) (batch : Images * Labels) : Fw :=
  (training_step Images Labels Output Loss Fw resize_ zero_grad forward
     criterion backward step (size0 batch.1) batch.1 batch.2 fw).1.2.

End Training_updates.

(** Where the [i]-th printed line of an epoch starts among the batches of
    the epoch, and how many batches it covers, when the first line comes
    after [k] batches. *)
Definition window_start (k i : nat) : nat :=
  match i with
  | O => 0
  | S i' => k + 40 * i'
  end.

Definition window_length (k i : nat) : nat :=
  match i with
  | O => k
  | S _ => 40
  end.

(** The lines printed for epoch [e] (which prints the number [e + 1]). *)
Definition epoch_lines {float : Type} (e : nat) (out : list (Z * Z * float))
  : list (Z * Z * float) :=
  filter (λ line, line.1.1 = Z.of_nat e + 1) out.

(** The names the notebook's traceback lists, in its order. *)
Definition recorded_size_mismatches : list string :=
  ["hidden_layers.0.weight"; "hidden_layers.0.bias";
   "hidden_layers.1.weight"; "hidden_layers.1.bias";
   "hidden_layers.2.weight"; "hidden_layers.2.bias";
   "output.weight"]%string.

(** The record of [dict_20_5_10] with one more entry, as a training script
    that also records the epoch would save it. *)
Definition dict_with_epoch : gmap string pyval :=
  <["epoch" := PInt 3]> dict_20_5_10.

(** * Properties *)

(** ** Checkpoints *)

(** *** Parameter names are distinct *)

Lemma chars_app (s1 s2 : string) :
  String.list_ascii_of_string (s1 +:+ s2)
  = String.list_ascii_of_string s1 ++ String.list_ascii_of_string s2.
Proof.
  induction s1 as [|a s1 IH]; [done|].
  change (String a s1 +:+ s2) with (String a (s1 +:+ s2)).
  simpl. by rewrite IH.
Qed.

Lemma chars_inj (s1 s2 : string) :
  String.list_ascii_of_string s1 = String.list_ascii_of_string s2 → s1 = s2.
Proof.
  intros H. rewrite <-(String.string_of_list_ascii_of_string s1),
    <-(String.string_of_list_ascii_of_string s2). by rewrite H.
Qed.

Lemma hidden_key_inj (i j : nat) (f g : string) :
  f ∈ ["weight"; "bias"]%string → g ∈ ["weight"; "bias"]%string →
  hidden_prefix i +:+ f = hidden_prefix j +:+ g → i = j ∧ f = g.
Proof.
  intros Hf Hg H. unfold hidden_prefix in H.
  apply (f_equal String.list_ascii_of_string) in H.
  rewrite !chars_app, <-!(assoc_L app) in H. apply (inj (app _)) in H.
  assert (f = g) as ->.
  { apply (f_equal (@rev _)) in H. rewrite !rev_app_distr in H.
    set_unfold in Hf; set_unfold in Hg.
    destruct Hf as [->|[->|[]]], Hg as [->|[->|[]]]; simpl in H;
      first [done | discriminate H]. }
  split; [|done].
  apply app_inv_tail in H. apply chars_inj in H. by apply (inj pretty) in H.
Qed.

Lemma hidden_key_not_output (i : nat) (f g : string) :
  hidden_prefix i +:+ f ≠ "output." +:+ g.
Proof.
  unfold hidden_prefix. intros H.
  apply (f_equal String.list_ascii_of_string) in H.
  rewrite !chars_app in H. simpl in H. discriminate H.
Qed.

Lemma hidden_parameters_names (i : nat) (ls : list Linear) (k : string) :
  k ∈ (hidden_parameters i ls).*1 →
  ∃ j f, (i ≤ j)%nat ∧ f ∈ ["weight"; "bias"]%string ∧ k = hidden_prefix j +:+ f.
Proof.
  revert i. induction ls as [|l ls IH]; intros i; simpl.
  - by intros ?%elem_of_nil.
  - rewrite !elem_of_cons. intros [->|[->|Hk]].
    + exists i, "weight"%string. split_and!; [lia|repeat constructor|done].
    + exists i, "bias"%string. split_and!; [lia|repeat constructor|done].
    + destruct (IH _ Hk) as (j & f & ? & ? & ->). exists j, f. split; [lia|done].
Qed.

Lemma hidden_parameters_NoDup (i : nat) (ls : list Linear) :
  NoDup (hidden_parameters i ls).*1.
Proof.
  revert i. induction ls as [|l ls IH]; intros i; simpl; [constructor|].
  constructor; [|constructor; [|apply IH]].
  - rewrite elem_of_cons. intros [H|H].
    + apply (hidden_key_inj i i) in H as [_ [=]]; repeat constructor.
    + apply hidden_parameters_names in H as (j & f & Hj & Hf & H).
      apply hidden_key_inj in H as [Hij _]; [lia|repeat constructor|done].
  - intros H. apply hidden_parameters_names in H as (j & f & Hj & Hf & H).
    apply hidden_key_inj in H as [Hij _]; [lia|repeat constructor|done].
Qed.

Lemma named_parameters_NoDup (m : network) : NoDup (named_parameters m).*1.
Proof.
  unfold named_parameters. rewrite fmap_app. apply NoDup_app. split_and!.
  - apply hidden_parameters_NoDup.
  - intros k Hk. apply hidden_parameters_names in Hk as (j & f & _ & _ & ->).
    simpl. rewrite !elem_of_cons, elem_of_nil.
    intros [H|[H|[]]]; by apply hidden_key_not_output in H.
  - simpl. constructor; [|constructor; [by intros ?%elem_of_nil|constructor]].
    intros H%list_elem_of_singleton. by apply (inj (String.append _)) in H.
Qed.

(** *** The restore, on mappings of tensors *)

Lemma omap_nil_iff {A B} (f : A → option B) (l : list A) :
  omap f l = [] ↔ ∀ x, x ∈ l → f x = None.
Proof.
  induction l as [|a l IH]; simpl.
  - split; [by intros _ x ?%elem_of_nil|done].
  - destruct (f a) eqn:E.
    + split; [done|]. intros H. rewrite H in E; [done|by left].
    + rewrite IH. split.
      * intros H x [->|?]%elem_of_cons; auto.
      * intros H x ?. apply H. by right.
Qed.

Lemma check_param_tensors (sd : gmap string tensor) (k : string) (p : tensor) :
  check_param (PTensor <$> sd) k p
  = match sd !! k with
    | None => MissingKey
    | Some t => if decide (tshape t = tshape p) then Loaded t
                else SizeMismatch (tshape t) (tshape p)
    end.
Proof. unfold check_param. rewrite lookup_fmap. by destruct (sd !! k). Qed.

Lemma not_a_tensor_tensors (sd : gmap string tensor)
    (params : list (string * tensor)) :
  not_a_tensor (PTensor <$> sd) params = false.
Proof.
  induction params as [|[k p] params IH]; [done|]. simpl.
  rewrite IH, check_param_tensors.
  destruct (sd !! k); [case_decide|]; done.
Qed.

Lemma parameter_map_lookup (m : network) (k : string) (p : tensor) :
  parameter_map m !! k = Some p ↔ (k, p) ∈ named_parameters m.
Proof.
  unfold parameter_map. split.
  - apply elem_of_list_to_map_2.
  - apply elem_of_list_to_map_1, named_parameters_NoDup.
Qed.

Lemma restore_report_iff (m : network) (sd : gmap string tensor) :
  missing_keys_of (PTensor <$> sd) (named_parameters m) = []
  ∧ unexpected_keys_of (PTensor <$> sd) (named_parameters m) = ∅
  ∧ size_mismatches_of (PTensor <$> sd) (named_parameters m) = []
  ↔ shapes sd = shapes (parameter_map m).
Proof.
  unfold missing_keys_of, size_mismatches_of, unexpected_keys_of, shapes.
  rewrite !omap_nil_iff, dom_fmap_L. split.
  - intros (Hmiss & Hunexp & Hsize). apply map_eq. intros k.
    rewrite !lookup_fmap.
    destruct (parameter_map m !! k) as [p|] eqn:Hp; simpl.
    + apply parameter_map_lookup in Hp.
      specialize (Hmiss _ Hp). specialize (Hsize _ Hp). simpl in *.
      rewrite check_param_tensors in Hmiss, Hsize.
      destruct (sd !! k) as [t|]; [|done]. simpl.
      case_decide; [congruence|done].
    + assert (k ∉ dom sd) as Hk; [|by apply not_elem_of_dom in Hk as ->].
      intros Hk. apply not_elem_of_list_to_map in Hp.
      assert (k ∈ dom sd ∖ list_to_set (C:=gset string) (named_parameters m).*1)
        as Hin.
      { apply elem_of_difference. by rewrite elem_of_list_to_set. }
      rewrite Hunexp in Hin. by apply elem_of_empty in Hin.
  - intros Heq.
    assert (∀ k p, (k, p) ∈ named_parameters m →
              ∃ t, sd !! k = Some t ∧ tshape t = tshape p) as Hall.
    { intros k p Hp%parameter_map_lookup.
      pose proof (f_equal (.!! k) Heq) as Hk. simpl in Hk.
      rewrite !lookup_fmap, Hp in Hk. simpl in Hk.
      destruct (sd !! k) as [t|]; simplify_eq/=. eauto. }
    split_and!.
    + intros [k p] (t & Ht & Hs)%Hall. rewrite check_param_tensors, Ht.
      by case_decide.
    + apply (f_equal dom) in Heq. rewrite !dom_fmap_L in Heq. rewrite Heq.
      unfold parameter_map. rewrite dom_list_to_map_L.
      apply difference_diag_L.
    + intros [k p] (t & Ht & Hs)%Hall. rewrite check_param_tensors, Ht.
      by case_decide.
Qed.

(** The restore succeeds exactly when the saved shapes are the shapes of
    the model's parameters, name by name; it then gives the model with the
    saved tensors copied in. *)
Lemma restore_ok_iff (m : network) (sd : gmap string tensor) :
  is_Ok (load_state_dict_result m (PDict (PTensor <$> sd)))
  ↔ shapes sd = shapes (parameter_map m).
Proof.
  unfold load_state_dict_result. rewrite not_a_tensor_tensors.
  rewrite <-restore_report_iff. by case_decide.
Qed.

Lemma restore_ok_value (m : network) (sd : gmap string tensor) :
  shapes sd = shapes (parameter_map m) →
  load_state_dict_result m (PDict (PTensor <$> sd))
  = Ok (load_network (PTensor <$> sd) m).
Proof.
  intros H%restore_report_iff. unfold load_state_dict_result.
  rewrite not_a_tensor_tensors. by case_decide.
Qed.

Lemma restore_size_mismatch (m : network) (sd : gmap string tensor)
    (k : string) (p t : tensor) :
  (k, p) ∈ named_parameters m → sd !! k = Some t → tshape t ≠ tshape p →
  ∃ missing unexpected mismatch,
    load_state_dict_result m (PDict (PTensor <$> sd))
    = Raise (RuntimeError_load_state_dict missing unexpected mismatch)
    ∧ (k, tshape t, tshape p) ∈ mismatch.
Proof.
  intros Hp Ht Hs. unfold load_state_dict_result.
  rewrite not_a_tensor_tensors.
  assert ((k, tshape t, tshape p)
          ∈ size_mismatches_of (PTensor <$> sd) (named_parameters m)) as Hin.
  { unfold size_mismatches_of. apply list_elem_of_omap. exists (k, p).
    split; [done|]. rewrite check_param_tensors, Ht. by case_decide. }
  case_decide as Hd.
  - destruct Hd as (_ & _ & Hd). rewrite Hd in Hin. by apply elem_of_nil in Hin.
  - eauto.
Qed.

(** *** Construction from valid sizes *)

Section Construction_facts.
Variable init : N → string → list nat → list Z.

Lemma as_dim_nat (k : nat) : as_dim (PInt (Z.of_nat k)) = Ok k.
Proof.
  unfold as_dim. destruct (Z.ltb_spec (Z.of_nat k) 0); [lia|].
  by rewrite Nat2Z.id.
Qed.

Lemma last_fmap_default {A B} (f : A → B) (l : list A) (d : A) :
  List.last (f <$> l) (f d) = f (List.last l d).
Proof. induction l as [|a [|b l] IH]; done. Qed.

Lemma build_hidden_widths (n : N) (i : nat) (prev_v : pyval) (prev : nat)
    (ws : list nat) :
  as_dim prev_v = Ok prev →
  build_hidden init n i prev_v ((λ h, PInt (Z.of_nat h)) <$> ws)
  = Ok (fresh_hidden init n i prev ws).
Proof.
  revert i prev_v prev. induction ws as [|h ws IH]; intros i prev_v prev Hp.
  - done.
  - simpl. unfold Linear_new. rewrite Hp, as_dim_nat. simpl.
    by rewrite (IH _ _ h (as_dim_nat h)).
Qed.

Lemma build_network_widths (n : N) (a b : pyval) (i o h0 : nat)
    (hs : list nat) :
  as_dim a = Ok i → as_dim b = Ok o →
  build_network init n a b (PList ((λ h, PInt (Z.of_nat h)) <$> (h0 :: hs)))
  = Ok {| hidden_layers := fresh_hidden init n 0 i (h0 :: hs);
          output := fresh_Linear init n "output." (List.last hs h0) o;
          dropout := 1 # 2 |}.
Proof.
  intros Ha Hb. unfold build_network. rewrite fmap_cons. cbv beta iota.
  rewrite <-(fmap_cons (λ h, PInt (Z.of_nat h))).
  rewrite (build_hidden_widths _ _ _ i) by done.
  cbn [bind_result].
  rewrite (last_fmap_default (λ h, PInt (Z.of_nat h))).
  unfold Linear_new. by rewrite as_dim_nat, Hb.
Qed.

Lemma fresh_hidden_same_arch (n : N) (i prev : nat) (ls : list Linear) :
  chained prev ls = true →
  Forall2 same_Linear_arch
    (fresh_hidden init n i prev (out_features <$> ls)) ls.
Proof.
  revert i prev. induction ls as [|l ls IH]; intros i prev; simpl.
  - constructor.
  - unfold Linear_ok. rewrite !andb_true_iff, !bool_decide_eq_true.
    intros [[Hin [Hw Hb]] Hrest]. constructor; [|by apply IH].
    unfold same_Linear_arch. simpl. by rewrite Hw, Hb, Hin.
Qed.

End Construction_facts.

(** *** Restoring into a model of the same architecture *)

Lemma hidden_parameters_elem (i : nat) (ls : list Linear) (j : nat) (l : Linear) :
  ls !! j = Some l →
  (hidden_prefix (i + j) +:+ "weight", weight l) ∈ hidden_parameters i ls
  ∧ (hidden_prefix (i + j) +:+ "bias", bias l) ∈ hidden_parameters i ls.
Proof.
  revert i j. induction ls as [|l' ls IH]; intros i [|j] Hj; simplify_eq/=.
  - rewrite Nat.add_0_r. split; [by left|by right; left].
  - replace (i + S j)%nat with (S i + j)%nat by lia.
    destruct (IH (S i) j Hj). split; by do 2 right.
Qed.

Lemma parameter_map_hidden (m : network) (j : nat) (l : Linear) :
  hidden_layers m !! j = Some l →
  parameter_map m !! (hidden_prefix j +:+ "weight") = Some (weight l)
  ∧ parameter_map m !! (hidden_prefix j +:+ "bias") = Some (bias l).
Proof.
  intros [Hw Hb]%(hidden_parameters_elem 0).
  rewrite !parameter_map_lookup. unfold named_parameters.
  rewrite !elem_of_app. auto.
Qed.

Lemma parameter_map_output (m : network) :
  parameter_map m !! ("output." +:+ "weight") = Some (weight (output m))
  ∧ parameter_map m !! ("output." +:+ "bias") = Some (bias (output m)).
Proof.
  rewrite !parameter_map_lookup. unfold named_parameters.
  rewrite !elem_of_app. split; right; [by left|by right; left].
Qed.

Lemma load_Linear_same (sd : gmap string pyval) (prefix : string)
    (l1 l2 : Linear) :
  same_Linear_arch l1 l2 →
  sd !! (prefix +:+ "weight") = Some (PTensor (weight l2)) →
  sd !! (prefix +:+ "bias") = Some (PTensor (bias l2)) →
  load_Linear sd prefix l1 = l2.
Proof.
  intros (Hi & Ho & Hw & Hb) Hsw Hsb. destruct l2 as [i2 o2 w2 b2].
  unfold load_Linear, copy_param, check_param. simpl in *.
  rewrite Hsw, Hsb, Hi, Ho. by rewrite !decide_True.
Qed.

Lemma load_hidden_same (sd : gmap string pyval) (i : nat)
    (ls1 ls2 : list Linear) :
  Forall2 same_Linear_arch ls1 ls2 →
  (∀ j l, ls2 !! j = Some l →
     sd !! (hidden_prefix (i + j) +:+ "weight") = Some (PTensor (weight l))
     ∧ sd !! (hidden_prefix (i + j) +:+ "bias") = Some (PTensor (bias l))) →
  load_hidden sd i ls1 = ls2.
Proof.
  intros HF. revert i. induction HF as [|l1 l2 ls1 ls2 Hl HF IH]; intros i Hsd.
  - done.
  - simpl. f_equal.
    + destruct (Hsd 0%nat l2 eq_refl) as [Hw Hb].
      rewrite Nat.add_0_r in Hw, Hb. by apply load_Linear_same.
    + apply IH. intros j l Hj. specialize (Hsd (S j) l Hj).
      by replace (i + S j)%nat with (S i + j)%nat in Hsd by lia.
Qed.

Lemma hidden_parameters_shapes (i : nat) (ls1 ls2 : list Linear) :
  Forall2 same_Linear_arch ls1 ls2 →
  prod_map id tshape <$> hidden_parameters i ls1
  = prod_map id tshape <$> hidden_parameters i ls2.
Proof.
  intros HF. revert i.
  induction HF as [|l1 l2 ls1 ls2 (_ & _ & Hw & Hb) HF IH]; intros i; [done|].
  simpl. by rewrite IH, Hw, Hb.
Qed.

Lemma same_arch_shapes (m1 m2 : network) :
  same_arch m1 m2 → shapes (parameter_map m1) = shapes (parameter_map m2).
Proof.
  intros (Hh & (_ & _ & Hw & Hb) & _). unfold shapes, parameter_map.
  rewrite <-!list_to_map_fmap. f_equal. unfold named_parameters.
  rewrite !fmap_app. f_equal; [by apply hidden_parameters_shapes|].
  simpl. by rewrite Hw, Hb.
Qed.

(** Restoring the state dict of a model into any model of the same
    architecture gives back the model the state dict came from. *)
Lemma restore_same_arch (m1 m2 : network) :
  same_arch m1 m2 → load_state_dict_result m1 (state_dict m2) = Ok m2.
Proof.
  intros Harch. unfold state_dict.
  rewrite restore_ok_value by (symmetry; by apply same_arch_shapes).
  f_equal. destruct Harch as (Hh & Ho & Hd). destruct m2 as [h2 o2 d2].
  unfold load_network. simpl in *. f_equal; [| |done].
  - apply load_hidden_same; [done|]. intros j l Hj. simpl.
    destruct (parameter_map_hidden {| hidden_layers := h2; output := o2;
                                      dropout := d2 |} j l Hj) as [Hw Hb].
    by rewrite !lookup_fmap, Hw, Hb.
  - destruct (parameter_map_output {| hidden_layers := h2; output := o2;
                                      dropout := d2 |}) as [Hw Hb].
    apply load_Linear_same; [done|..]; by rewrite lookup_fmap, ?Hw, ?Hb.
Qed.

(** *** The invariant of [Network] objects *)

Lemma fresh_Linear_ok (init : N → string → list nat → list Z) (n : N)
    (prefix : string) (i o : nat) :
  Linear_ok (fresh_Linear init n prefix i o) = true.
Proof. unfold Linear_ok. simpl. by rewrite !bool_decide_eq_true_2. Qed.

Lemma fresh_hidden_chained (init : N → string → list nat → list Z) (n : N)
    (i prev : nat) (ws : list nat) :
  chained prev (fresh_hidden init n i prev ws) = true.
Proof.
  revert i prev. induction ws as [|h ws IH]; intros i prev; [done|].
  cbn [fresh_hidden chained]. rewrite fresh_Linear_ok, IH.
  by rewrite bool_decide_eq_true_2.
Qed.

Lemma fresh_hidden_widths (init : N → string → list nat → list Z) (n : N)
    (i prev : nat) (ws : list nat) :
  out_features <$> fresh_hidden init n i prev ws = ws.
Proof.
  revert i prev. induction ws as [|h ws IH]; intros i prev; [done|].
  cbn [fresh_hidden]. rewrite fmap_cons. by rewrite IH.
Qed.

(** What the constructor makes from valid sizes satisfies the invariant. *)
Lemma fresh_network_ok (init : N → string → list nat → list Z) (n : N)
    (i o h0 : nat) (hs : list nat) :
  network_ok {| hidden_layers := fresh_hidden init n 0 i (h0 :: hs);
                output := fresh_Linear init n "output." (List.last hs h0) o;
                dropout := 1 # 2 |} = true.
Proof.
  unfold network_ok. cbn [hidden_layers output dropout fresh_hidden].
  rewrite !andb_true_iff, !bool_decide_eq_true. split_and!.
  - apply (fresh_hidden_chained init n 0 i (h0 :: hs)).
  - apply fresh_Linear_ok.
  - by rewrite fresh_hidden_widths.
  - done.
Qed.

(** The restore keeps the shape of every parameter, whatever the mapping. *)
Lemma copy_param_shape (sd : gmap string pyval) (key : string) (param : tensor) :
  tshape (copy_param sd key param) = tshape param.
Proof.
  unfold copy_param, check_param.
  destruct (sd !! key) as [[| |t|]|]; try done. by case_decide.
Qed.

Lemma load_Linear_ok (sd : gmap string pyval) (prefix : string) (l : Linear) :
  Linear_ok (load_Linear sd prefix l) = Linear_ok l.
Proof. unfold Linear_ok, load_Linear. simpl. by rewrite !copy_param_shape. Qed.

Lemma load_hidden_chained (sd : gmap string pyval) (i prev : nat)
    (ls : list Linear) :
  chained prev (load_hidden sd i ls) = chained prev ls.
Proof.
  revert i prev. induction ls as [|l ls IH]; intros i prev; [done|].
  cbn [load_hidden chained]. by rewrite load_Linear_ok, IH.
Qed.

Lemma load_hidden_widths (sd : gmap string pyval) (i : nat) (ls : list Linear) :
  out_features <$> load_hidden sd i ls = out_features <$> ls.
Proof.
  revert i. induction ls as [|l ls IH]; intros i; [done|].
  cbn [load_hidden]. by rewrite !fmap_cons, IH.
Qed.

(** The invariant holds for a model as it held before the restore. *)
Lemma load_network_ok (sd : gmap string pyval) (m : network) :
  network_ok (load_network sd m) = network_ok m.
Proof.
  unfold network_ok, load_network. cbn [hidden_layers output dropout].
  destruct (hidden_layers m) as [|l0 ls]; [done|].
  cbn [load_hidden].
  rewrite <-(load_hidden_chained sd 0 (in_features l0) (l0 :: ls)).
  by rewrite load_Linear_ok, load_hidden_widths.
Qed.

Section Checkpoint_facts.
Variable init : N → string → list nat → list Z.

(** *** Running the notebook's code *)

Lemma save_checkpoint_run (model : network) (w : world) :
  save_checkpoint model w
  = (Ok tt,
     {| fs := <["checkpoint.pth" := checkpoint model (state_dict model)]> (fs w);
        rng := rng w;
        trace := trace w ++ [EvStateDict (state_dict model);
                             EvTorchSave (checkpoint model (state_dict model))
                                         "checkpoint.pth"] |}).
Proof.
  unfold save_checkpoint, bind, state_dict_call, torch_save, log. simpl.
  by rewrite <-(assoc_L app).
Qed.

Lemma load_checkpoint_run (fp : string) (w : world) (d : gmap string pyval)
    (a b c : pyval) :
  fs w !! fp = Some (PDict d) →
  d !! "input_size" = Some a →
  d !! "output_size" = Some b →
  d !! "hidden_layers" = Some c →
  load_checkpoint init fp w
  = match build_network init (rng w) a b c with
    | Raise e =>
        (Raise e,
         {| fs := fs w; rng := rng w;
            trace := trace w ++ [EvTorchLoad fp; EvNetwork a b c] |})
    | Ok fresh =>
        match d !! "state_dict" with
        | None =>
            (Raise (KeyError "state_dict"),
             {| fs := fs w; rng := N.succ (rng w);
                trace := trace w ++ [EvTorchLoad fp; EvNetwork a b c] |})
        | Some sd =>
            (load_state_dict_result fresh sd,
             {| fs := fs w; rng := N.succ (rng w);
                trace := trace w ++ [EvTorchLoad fp; EvNetwork a b c;
                                     EvLoadStateDict sd] |})
        end
    end.
Proof.
  intros Hfile Ha Hb Hc.
  unfold load_checkpoint, bind, torch_load, lift, Network, load_state_dict,
    ret, log. rewrite Hfile. simpl. rewrite Ha, Hb, Hc. simpl.
  destruct (build_network init (rng w) a b c) as [fresh|e]; simpl.
  - destruct (d !! "state_dict") as [sd|]; simpl.
    + destruct (load_state_dict_result fresh sd);
        by rewrite <-!(assoc_L app).
    + by rewrite <-!(assoc_L app).
  - by rewrite <-!(assoc_L app).
Qed.

Lemma checkpoint_lookups (model : network) (sd : pyval) :
  ∃ d, checkpoint model sd = PDict d
    ∧ dom d = checkpoint_keys
    ∧ d !! "input_size" = Some (PInt 784)
    ∧ d !! "output_size" = Some (PInt 10)
    ∧ d !! "hidden_layers"
      = Some (PList ((λ each, PInt (Z.of_nat (out_features each)))
                       <$> hidden_layers model))
    ∧ d !! "state_dict" = Some sd.
Proof.
  exists (checkpoint_dict model sd). by split_and!.
Qed.
End Checkpoint_facts.

Section Checkpoint_claims.
Variable init : N → string → list nat → list Z.

(** The model the constructor makes from the configuration the save cell
    writes for [model]: sizes 784 and 10, and [model]'s hidden widths. *)
Lemma build_network_of_checkpoint (n : N) (model : network) (l0 : Linear)
    (ls : list Linear) :
  hidden_layers model = l0 :: ls →
  build_network init n (PInt 784) (PInt 10)
    (PList ((λ each, PInt (Z.of_nat (out_features each)))
              <$> hidden_layers model))
  = Ok {| hidden_layers :=
            fresh_hidden init n 0 784 (out_features <$> l0 :: ls);
          output :=
            fresh_Linear init n "output."
              (List.last (out_features <$> ls) (out_features l0)) 10;
          dropout := 1 # 2 |}.
Proof.
  intros ->.
  rewrite (list_fmap_compose out_features (λ h, PInt (Z.of_nat h))).
  rewrite fmap_cons. by apply build_network_widths.
Qed.

Lemma network_ok_inv (model : network) :
  network_ok model = true →
  ∃ l0 ls, hidden_layers model = l0 :: ls
    ∧ chained (in_features l0) (l0 :: ls) = true
    ∧ Linear_ok (output model) = true
    ∧ in_features (output model)
      = List.last (out_features <$> ls) (out_features l0)
    ∧ dropout model = 1 # 2.
Proof.
  unfold network_ok. destruct (hidden_layers model) as [|l0 ls]; [done|].
  rewrite !andb_true_iff, !bool_decide_eq_true.
  intros [[[? ?] ?] ?]. by exists l0, ls.
Qed.

Lemma round_trip_same_arch (n : N) (model : network) (l0 : Linear)
    (ls : list Linear) :
  hidden_layers model = l0 :: ls →
  chained (in_features l0) (l0 :: ls) = true →
  Linear_ok (output model) = true →
  in_features (output model)
  = List.last (out_features <$> ls) (out_features l0) →
  dropout model = 1 # 2 →
  in_features l0 = 784%nat → out_features (output model) = 10%nat →
  same_arch
    {| hidden_layers :=
         fresh_hidden init n 0 784 (out_features <$> l0 :: ls);
       output :=
         fresh_Linear init n "output."
           (List.last (out_features <$> ls) (out_features l0)) 10;
       dropout := 1 # 2 |}
    model.
Proof.
  intros Hh Hch Hout Hin Hd H784 H10. unfold same_arch. rewrite Hh, Hd.
  cbn [hidden_layers output dropout]. split_and!; [| |done].
  - rewrite <-H784. by apply fresh_hidden_same_arch.
  - unfold Linear_ok in Hout.
    apply andb_true_iff in Hout as [Hw%bool_decide_eq_true Hb%bool_decide_eq_true].
    unfold same_Linear_arch, fresh_Linear. cbn [in_features out_features weight bias tshape].
    by rewrite Hw, Hb, Hin, H10.
Qed.
(** Models of one architecture in the sense of [same_arch] print the same
    sizes. *)
Lemma same_arch_architecture (m1 m2 : network) :
  same_arch m1 m2 → architecture m1 = architecture m2.
Proof.
  intros (Hh & (Hi & Ho & _) & Hd). unfold architecture.
  rewrite Hi, Ho, Hd. do 2 f_equal.
  induction Hh as [|l1 l2 ls1 ls2 (Hi' & Ho' & _) _ IH]; [done|].
  rewrite !fmap_cons, Hi', Ho'. by f_equal.
Qed.

(** The names of the parameters depend on the number of layers only. *)
Lemma hidden_parameters_same_names (i : nat) (ls1 ls2 : list Linear) :
  length ls1 = length ls2 →
  (hidden_parameters i ls1).*1 = (hidden_parameters i ls2).*1.
Proof.
  revert i ls2. induction ls1 as [|l1 ls1 IH]; intros i [|l2 ls2] Hlen;
    try done.
  simpl. do 2 f_equal. apply IH. simpl in Hlen. lia.
Qed.

(** Restoring the state dict of a model into a model with as many hidden
    layers finds every name: when it raises, the error lists size
    mismatches and nothing else. *)
Lemma restore_same_depth_error (m1 m2 : network) (e : exn) :
  length (hidden_layers m1) = length (hidden_layers m2) →
  load_state_dict_result m1 (state_dict m2) = Raise e →
  ∃ mismatch,
    e = RuntimeError_load_state_dict [] ∅ mismatch ∧ mismatch ≠ [].
Proof.
  intros Hlen. unfold state_dict, load_state_dict_result.
  rewrite not_a_tensor_tensors.
  assert ((named_parameters m1).*1 = (named_parameters m2).*1) as Hnames.
  { unfold named_parameters. rewrite !fmap_app. f_equal.
    by apply hidden_parameters_same_names. }
  assert (missing_keys_of (PTensor <$> parameter_map m2)
            (named_parameters m1) = []) as ->.
  { unfold missing_keys_of. apply omap_nil_iff. intros [k p] Hp.
    rewrite check_param_tensors.
    assert (k ∈ (named_parameters m2).*1) as Hk.
    { rewrite <-Hnames. apply list_elem_of_fmap. by exists (k, p). }
    apply list_elem_of_fmap in Hk as ([k' t] & -> & Ht). simpl.
    apply parameter_map_lookup in Ht as ->. by case_decide. }
  assert (unexpected_keys_of (PTensor <$> parameter_map m2)
            (named_parameters m1) = ∅) as ->.
  { unfold unexpected_keys_of, parameter_map.
    by rewrite dom_fmap_L, dom_list_to_map_L, Hnames, difference_diag_L. }
  case_decide as Hd; [done|]. intros [= <-]. eexists. split; [done|].
  intros Hnil. by apply Hd.
Qed.

(** The model constructed from the configuration of the checkpoint of
    [model] takes the saved parameters exactly when it has the
    architecture of [model]. *)
Lemma checkpoint_restore_iff (n : N) (model : network) (l0 : Linear)
    (ls : list Linear) :
  hidden_layers model = l0 :: ls →
  chained (in_features l0) (l0 :: ls) = true →
  Linear_ok (output model) = true →
  in_features (output model)
  = List.last (out_features <$> ls) (out_features l0) →
  dropout model = 1 # 2 →
  let fresh :=
    {| hidden_layers :=
         fresh_hidden init n 0 784 (out_features <$> l0 :: ls);
       output :=
         fresh_Linear init n "output."
           (List.last (out_features <$> ls) (out_features l0)) 10;
       dropout := 1 # 2 |} in
  (is_Ok (load_state_dict_result fresh (state_dict model))
   ↔ architecture fresh = architecture model)
  ∧ length (hidden_layers fresh) = length (hidden_layers model).
Proof.
  intros Hh Hch Hout Hin Hd fresh.
  assert (in_features l0 = 784%nat → out_features (output model) = 10%nat →
          same_arch fresh model) as Hsame.
  { intros. by apply round_trip_same_arch. }
  split.
  - split.
    + unfold state_dict. intros Hshapes%restore_ok_iff.
      apply same_arch_architecture, Hsame.
      * pose proof (f_equal (.!! (hidden_prefix 0 +:+ "weight")%string)
                      Hshapes) as Hk.
        unfold shapes in Hk. simpl in Hk. rewrite !lookup_fmap in Hk.
        destruct (parameter_map_hidden model 0 l0) as [Hw _];
          [by rewrite Hh|].
        destruct (parameter_map_hidden fresh 0
                    (fresh_Linear init n (hidden_prefix 0) 784
                       (out_features l0))) as [Hw' _]; [done|].
        rewrite Hw, Hw' in Hk. simpl in Hk, Hch. unfold Linear_ok in Hch.
        rewrite !andb_true_iff, !bool_decide_eq_true in Hch.
        destruct Hch as [[_ [Hw0 _]] _]. rewrite Hw0 in Hk. congruence.
      * pose proof (f_equal (.!! ("output." +:+ "bias")%string) Hshapes)
          as Hk.
        unfold shapes in Hk. simpl in Hk. rewrite !lookup_fmap in Hk.
        destruct (parameter_map_output model) as [_ Hb].
        destruct (parameter_map_output fresh) as [_ Hb'].
        rewrite Hb, Hb' in Hk. simpl in Hk. unfold Linear_ok in Hout.
        rewrite !andb_true_iff, !bool_decide_eq_true in Hout.
        destruct Hout as [_ Hbo]. rewrite Hbo in Hk. congruence.
    + unfold architecture. rewrite Hh. subst fresh.
      cbn [hidden_layers output dropout fresh_hidden fresh_Linear
           in_features out_features fmap list_fmap].
      intros [= H784 _ _ H10].
      rewrite restore_same_arch; [done|]. by apply Hsame.
  - subst fresh. cbn [hidden_layers]. rewrite Hh.
    by rewrite <-(length_fmap out_features (fresh_hidden _ _ _ _ _)),
      fresh_hidden_widths, length_fmap.
Qed.
End Checkpoint_claims.

(** Membership of an event in a trace that was extended by a few calls. *)
Ltac trace_cases :=
  rewrite ?elem_of_app, ?elem_of_cons, ?elem_of_nil;
  intuition (discriminate || congruence).

Section Checkpoint_theorems.
Variable init : N → string → list nat → list Z.

(** Claim C1, as amended.  For every model that really has input size
    784 and output size 10 (the sizes the save cell writes into every
    checkpoint), saving the checkpoint and then calling [load_checkpoint]
    on the file returns a model with the architecture of the saved model
    and with its parameters: it returns the saved model itself. *)
Theorem checkpoint_round_trip (model : network) (w : world) :
  network_ok model = true →
  input_size_of model = 784%nat →
  output_size_of model = 10%nat →
  ∃ m, outcome (load_checkpoint init "checkpoint.pth"
                  (world_after (save_checkpoint model w))) = Ok m
     ∧ architecture m = architecture model
     ∧ named_parameters m = named_parameters model.
Proof.
  intros (l0 & ls & Hh & Hch & Hout & Hin & Hd)%network_ok_inv H784 H10.
  exists model. split; [|done].
  unfold input_size_of in H784. rewrite Hh in H784.
  rewrite save_checkpoint_run. unfold world_after, outcome. cbn [snd].
  destruct (checkpoint_lookups model (state_dict model))
    as (d & Hd' & _ & Ha & Hb & Hc & Hsd).
  erewrite load_checkpoint_run;
    [|cbn [fs]; rewrite lookup_insert_eq, Hd'; reflexivity|done..].
  cbn [rng]. rewrite (build_network_of_checkpoint _ _ _ l0 ls) by done.
  rewrite Hsd. cbn [fst].
  by apply restore_same_arch, round_trip_same_arch.
Qed.

(** Claim C2.  When the file holds a checkpoint record,
    [load_checkpoint] loads it, calls the constructor with exactly the
    record's [input_size], [output_size] and [hidden_layers], and only
    then, if the construction succeeded, calls the restore with the
    record's [state_dict] on the model just constructed; what it returns
    is the model the restore gives. *)
Theorem load_checkpoint_constructs_then_restores (fp : string) (w : world)
    (d : gmap string pyval) (a b c sd : pyval) :
  fs w !! fp = Some (PDict d) →
  d !! "input_size" = Some a →
  d !! "output_size" = Some b →
  d !! "hidden_layers" = Some c →
  d !! "state_dict" = Some sd →
  let r := load_checkpoint init fp w in
  match build_network init (rng w) a b c with
  | Ok fresh =>
      outcome r = load_state_dict_result fresh sd
      ∧ trace (world_after r)
        = trace w ++ [EvTorchLoad fp; EvNetwork a b c; EvLoadStateDict sd]
  | Raise e =>
      outcome r = Raise e
      ∧ trace (world_after r) = trace w ++ [EvTorchLoad fp; EvNetwork a b c]
  end.
Proof.
  intros Hfile Ha Hb Hc Hsd r. subst r.
  rewrite (load_checkpoint_run _ _ _ _ _ _ _ Hfile Ha Hb Hc), Hsd.
  by destruct (build_network init (rng w) a b c).
Qed.

(** Claim C4.  Restoring a checkpoint that the save cell wrote fails in
    one way only.  [load_checkpoint] constructs a model from the record
    and its outcome is the outcome of the restore of the saved parameters
    into that model: either the model, or the framework's error, which
    then lists size mismatches and nothing else and is raised exactly
    when the constructed model has another architecture than the saved
    one.  Whatever record the file holds, an error of the restore is the
    outcome of [load_checkpoint] unchanged: the restore is the last call
    made, nothing handles or retries it, and no model is returned. *)
Theorem restore_error_propagates :
  (∀ (model : network) (w : world),
     network_ok model = true →
     let r := load_checkpoint init "checkpoint.pth"
                (world_after (save_checkpoint model w)) in
     ∃ fresh,
       build_network init (rng w) (PInt 784) (PInt 10)
         (PList ((λ each, PInt (Z.of_nat (out_features each)))
                   <$> hidden_layers model)) = Ok fresh
       ∧ outcome r = load_state_dict_result fresh (state_dict model)
       ∧ (is_Ok (outcome r) ↔ architecture fresh = architecture model)
       ∧ (∀ e, outcome r = Raise e →
               architecture fresh ≠ architecture model
               ∧ is_size_mismatch_error e
               ∧ ∃ mismatch,
                   e = RuntimeError_load_state_dict [] ∅ mismatch))
  ∧ (∀ (fp : string) (w : world) (d : gmap string pyval) (a b c sd : pyval)
       (fresh : network) (e : exn),
       fs w !! fp = Some (PDict d) →
       d !! "input_size" = Some a →
       d !! "output_size" = Some b →
       d !! "hidden_layers" = Some c →
       d !! "state_dict" = Some sd →
       build_network init (rng w) a b c = Ok fresh →
       load_state_dict_result fresh sd = Raise e →
       let r := load_checkpoint init fp w in
       outcome r = Raise e
       ∧ ¬ is_Ok (outcome r)
       ∧ trace (world_after r)
         = trace w ++ [EvTorchLoad fp; EvNetwork a b c; EvLoadStateDict sd]).
Proof.
  split.
  - intros model w Hok r. subst r.
    pose proof Hok as (l0 & ls & Hh & Hch & Hout & Hin & Hd)%network_ok_inv.
    rewrite save_checkpoint_run. unfold world_after, outcome. cbn [snd].
    destruct (checkpoint_lookups model (state_dict model))
      as (d & Hd' & _ & Ha & Hb & Hc & Hsd).
    erewrite load_checkpoint_run;
      [|cbn [fs]; rewrite lookup_insert_eq, Hd'; reflexivity|done..].
    cbn [rng]. rewrite (build_network_of_checkpoint _ _ _ l0 ls) by done.
    rewrite Hsd. cbn [fst].
    destruct (checkpoint_restore_iff init (rng w) model l0 ls
                Hh Hch Hout Hin Hd) as [Hiff Hlen].
    eexists. split_and!; [done|done|exact Hiff|].
    intros e He.
    destruct (restore_same_depth_error _ _ e Hlen He) as (mm & -> & Hmm).
    split_and!; [|done|by eauto].
    intros Harch%Hiff. rewrite He in Harch. by destruct Harch.
  - intros fp w d a b c sd fresh e Hfile Ha Hb Hc Hsd Hnew He r. subst r.
    rewrite (load_checkpoint_run _ _ _ _ _ _ _ Hfile Ha Hb Hc), Hnew, Hsd.
    unfold outcome, world_after. cbn [fst snd trace]. rewrite He. auto.
Qed.

(** Claim C5.  Restoring a mapping of saved tensors into a model succeeds
    exactly when the saved shapes are the shapes of the model's
    parameters, name by name; and when the model constructed from the
    configuration of a checkpoint record has exactly the saved shapes,
    [load_checkpoint] does not raise but returns a model. *)
Theorem restore_succeeds_iff_shapes_equal :
  (∀ (m : network) (saved : gmap string tensor),
     is_Ok (load_state_dict_result m (PDict (PTensor <$> saved)))
     ↔ shapes saved = shapes (parameter_map m))
  ∧ (∀ (fp : string) (w : world) (d : gmap string pyval) (a b c : pyval)
       (saved : gmap string tensor) (fresh : network),
       fs w !! fp = Some (PDict d) →
       d !! "input_size" = Some a →
       d !! "output_size" = Some b →
       d !! "hidden_layers" = Some c →
       d !! "state_dict" = Some (PDict (PTensor <$> saved)) →
       build_network init (rng w) a b c = Ok fresh →
       shapes saved = shapes (parameter_map fresh) →
       ∃ m, outcome (load_checkpoint init fp w) = Ok m).
Proof.
  split; [apply restore_ok_iff|].
  intros fp w d a b c saved fresh Hfile Ha Hb Hc Hsd Hnew Hshapes.
  rewrite (load_checkpoint_run _ _ _ _ _ _ _ Hfile Ha Hb Hc), Hnew, Hsd.
  unfold outcome. cbn [fst]. rewrite restore_ok_value by done. eauto.
Qed.

(** Claim C7.  The save cell stores under ['state_dict'] the very value
    the framework's [state_dict()] returned, whatever that value is, and
    the only restore call [load_checkpoint] makes receives the very value
    the loaded record holds under ['state_dict'], whatever that value
    is. *)
Theorem state_dict_passes_opaquely :
  (∀ (model : network) (sd : pyval),
     subscript (checkpoint model sd) "state_dict" = Ok sd)
  ∧ (∀ (model : network) (w : world),
       trace (world_after (save_checkpoint model w))
       = trace w ++ [EvStateDict (state_dict model);
                     EvTorchSave (checkpoint model (state_dict model))
                                 "checkpoint.pth"])
  ∧ (∀ (fp : string) (w : world) (d : gmap string pyval) (sd x : pyval),
       fs w !! fp = Some (PDict d) →
       d !! "state_dict" = Some sd →
       EvLoadStateDict x ∈ trace (world_after (load_checkpoint init fp w)) →
       EvLoadStateDict x ∈ trace w ∨ x = sd).
Proof.
  split_and!.
  - intros model sd. by destruct (checkpoint_lookups model sd)
      as (d & -> & _ & _ & _ & _ & Hsd); simpl; rewrite Hsd.
  - intros model w. by rewrite save_checkpoint_run.
  - intros fp w d sd x Hfile Hsd.
    unfold load_checkpoint, bind, torch_load, lift, Network,
      load_state_dict, ret, log, world_after. rewrite Hfile. simpl.
    destruct (d !! "input_size") as [a|]; simpl; [|trace_cases].
    destruct (d !! "output_size") as [b|]; simpl; [|trace_cases].
    destruct (d !! "hidden_layers") as [c|]; simpl; [|trace_cases].
    destruct (build_network init (rng w) a b c) as [fresh|e]; simpl;
      [|trace_cases].
    rewrite Hsd. simpl.
    destruct (load_state_dict_result fresh sd); simpl; trace_cases.
Qed.

(** Claim C8.  The checkpoint the save cell writes has the literals 784
    and 10 under ['input_size'] and ['output_size'] whatever the model,
    and the model's hidden widths under ['hidden_layers']; so for every
    model whose input size is not 784 or whose output size is not 10,
    [load_checkpoint] on the saved file raises the size-mismatch error
    and returns no model. *)
Theorem literal_sizes_mismatch :
  (∀ (model : network) (sd : pyval),
     subscript (checkpoint model sd) "input_size" = Ok (PInt 784)
     ∧ subscript (checkpoint model sd) "output_size" = Ok (PInt 10)
     ∧ subscript (checkpoint model sd) "hidden_layers"
       = Ok (PList ((λ each, PInt (Z.of_nat (out_features each)))
                      <$> hidden_layers model)))
  ∧ (∀ (model : network) (w : world),
       network_ok model = true →
       input_size_of model ≠ 784%nat ∨ output_size_of model ≠ 10%nat →
       ∃ e, outcome (load_checkpoint init "checkpoint.pth"
                       (world_after (save_checkpoint model w))) = Raise e
          ∧ is_size_mismatch_error e).
Proof.
  split.
  - intros model sd. destruct (checkpoint_lookups model sd)
      as (d & -> & _ & Ha & Hb & Hc & _). simpl. by rewrite Ha, Hb, Hc.
  - intros model w (l0 & ls & Hh & Hch & Hout & Hin & Hd)%network_ok_inv Hne.
    rewrite save_checkpoint_run. unfold world_after, outcome. cbn [snd].
    destruct (checkpoint_lookups model (state_dict model))
      as (d & Hd' & _ & Ha & Hb & Hc & Hsd).
    erewrite load_checkpoint_run;
      [|cbn [fs]; rewrite lookup_insert_eq, Hd'; reflexivity|done..].
    cbn [rng]. rewrite (build_network_of_checkpoint _ _ _ l0 ls) by done.
    rewrite Hsd. cbn [fst]. unfold state_dict.
    set (fresh := {| hidden_layers := _ |}).
    assert (∃ k p t, (k, p) ∈ named_parameters fresh
              ∧ parameter_map model !! k = Some t
              ∧ tshape t ≠ tshape p) as (k & p & t & Hp & Ht & Hs).
    { simpl in Hch. unfold Linear_ok in Hch, Hout.
      rewrite !andb_true_iff, !bool_decide_eq_true in Hch.
      rewrite !andb_true_iff, !bool_decide_eq_true in Hout.
      destruct Hch as [[_ [Hw0 _]] _], Hout as [_ Hbo].
      destruct (decide (in_features l0 = 784%nat)) as [H784|H784].
      - assert (out_features (output model) ≠ 10%nat) as H10.
        { unfold input_size_of, output_size_of in Hne. rewrite Hh in Hne.
          by destruct Hne. }
        exists ("output." +:+ "bias")%string, (bias (output fresh)),
          (bias (output model)). split_and!.
        + unfold named_parameters. rewrite elem_of_app. right.
          by right; left.
        + apply parameter_map_output.
        + rewrite Hbo. subst fresh. simpl. congruence.
      - exists (hidden_prefix 0 +:+ "weight")%string,
          (Tensor [out_features l0; 784%nat]
             (init (rng w) (hidden_prefix 0 +:+ "weight")
                [out_features l0; 784%nat])),
          (weight l0). split_and!.
        + subst fresh. unfold named_parameters. simpl. by left.
        + apply (parameter_map_hidden model 0 l0). by rewrite Hh.
        + rewrite Hw0. simpl. congruence. }
    destruct (restore_size_mismatch fresh _ k p t Hp Ht Hs)
      as (mi & un & mm & -> & Hin'). eexists. split; [done|].
    simpl. intros ->. by apply elem_of_nil in Hin'.
Qed.

(** Claim C10, as amended.  When the record in the file lacks one of the
    four keys, [load_checkpoint] raises and returns no model.  The error
    is the key-lookup error for the first of ['input_size'],
    ['output_size'], ['hidden_layers'] that is missing; when these three
    are there and ['state_dict'] is missing, it is the key-lookup error
    for ['state_dict'] if the construction from the three values
    succeeds, and the error of the construction otherwise. *)
Theorem missing_key_no_model (fp : string) (w : world)
    (d : gmap string pyval) (k : string) :
  fs w !! fp = Some (PDict d) →
  k ∈ checkpoint_keys → d !! k = None →
  ∃ e, outcome (load_checkpoint init fp w) = Raise e
     ∧ match d !! "input_size", d !! "output_size", d !! "hidden_layers" with
       | None, _, _ => e = KeyError "input_size"
       | Some _, None, _ => e = KeyError "output_size"
       | Some _, Some _, None => e = KeyError "hidden_layers"
       | Some a, Some b, Some c =>
           match build_network init (rng w) a b c with
           | Ok _ => e = KeyError "state_dict"
           | Raise e' => e = e'
           end
       end.
Proof.
  intros Hfile Hk Hnone.
  destruct (d !! "input_size") as [a|] eqn:Ha;
    [destruct (d !! "output_size") as [b|] eqn:Hb;
      [destruct (d !! "hidden_layers") as [c|] eqn:Hc|]|].
  - assert (d !! "state_dict" = None) as Hsd.
    { unfold checkpoint_keys in Hk.
      rewrite !elem_of_union, !elem_of_singleton in Hk.
      destruct Hk as [[[->| ->]| ->]| ->]; congruence. }
    rewrite (load_checkpoint_run _ _ _ _ _ _ _ Hfile Ha Hb Hc), Hsd.
    destruct (build_network init (rng w) a b c); eauto.
  - unfold load_checkpoint, bind, torch_load, lift, outcome.
    rewrite Hfile. simpl. rewrite Ha, Hb, Hc. simpl. eauto.
  - unfold load_checkpoint, bind, torch_load, lift, outcome.
    rewrite Hfile. simpl. rewrite Ha, Hb. simpl. eauto.
  - unfold load_checkpoint, bind, torch_load, lift, outcome.
    rewrite Hfile. simpl. rewrite Ha. simpl. eauto.
Qed.

End Checkpoint_theorems.

(** Claim C3.  The record the save cell persists is a dictionary with
    exactly the four keys; under ['hidden_layers'] it has the list of the
    [out_features] of the model's hidden layers, in layer order, and under
    ['state_dict'] the mapping the framework's [state_dict()] gave. *)
Theorem checkpoint_record_fields (model : network) (w : world) :
  let r := save_checkpoint model w in
  ∃ d, fs (world_after r) !! "checkpoint.pth" = Some (PDict d)
     ∧ last (trace (world_after r))
       = Some (EvTorchSave (PDict d) "checkpoint.pth")
     ∧ dom d = checkpoint_keys
     ∧ d !! "input_size" = Some (PInt 784)
     ∧ d !! "output_size" = Some (PInt 10)
     ∧ d !! "hidden_layers"
       = Some (PList ((λ each, PInt (Z.of_nat (out_features each)))
                        <$> hidden_layers model))
     ∧ d !! "state_dict" = Some (state_dict model).
Proof.
  intros r. subst r. rewrite save_checkpoint_run.
  destruct (checkpoint_lookups model (state_dict model))
    as (d & Hd & Hdom & Ha & Hb & Hc & Hsd).
  exists d. unfold world_after. cbn [snd fs trace]. rewrite Hd. split_and!; try done.
  - by rewrite lookup_insert_eq.
  - by rewrite last_app.
Qed.

(** *** The claims at concrete models and files *)

(** Claim C1 fails as stated: a model with input size 20 is saved with
    ['input_size': 784], and loading the file raises. *)
Lemma round_trip_fails_other_input_size :
  network_ok model_20_5_10 = true
  ∧ outcome (load_checkpoint zero_init "checkpoint.pth"
               (world_after (save_checkpoint model_20_5_10 world0)))
    = Raise (RuntimeError_load_state_dict [] ∅
               [("hidden_layers.0.weight"%string, [5; 20]%nat, [5; 784]%nat)]).
Proof. split; vm_compute; reflexivity. Qed.

Lemma checkpoint_round_trip_witness :
  network_ok model_784_2_10 = true
  ∧ input_size_of model_784_2_10 = 784%nat
  ∧ output_size_of model_784_2_10 = 10%nat
  ∧ ∃ m, outcome (load_checkpoint zero_init "checkpoint.pth"
                    (world_after (save_checkpoint model_784_2_10 world0)))
         = Ok m
       ∧ architecture m = architecture model_784_2_10
       ∧ named_parameters m = named_parameters model_784_2_10.
Proof.
  split_and!; [reflexivity..|].
  apply (checkpoint_round_trip zero_init model_784_2_10 world0); reflexivity.
Defined.

Lemma load_checkpoint_constructs_then_restores_witness :
  let w := world_with (PDict dict_20_5_10) in
  let r := load_checkpoint zero_init "checkpoint.pth" w in
  match build_network zero_init (rng w) (PInt 20) (PInt 10) (PList [PInt 5]) with
  | Ok fresh =>
      outcome r = load_state_dict_result fresh (state_dict model_20_5_10)
      ∧ trace (world_after r)
        = trace w ++ [EvTorchLoad "checkpoint.pth";
                      EvNetwork (PInt 20) (PInt 10) (PList [PInt 5]);
                      EvLoadStateDict (state_dict model_20_5_10)]
  | Raise e =>
      outcome r = Raise e
      ∧ trace (world_after r)
        = trace w ++ [EvTorchLoad "checkpoint.pth";
                      EvNetwork (PInt 20) (PInt 10) (PList [PInt 5])]
  end.
Proof.
  intros w.
  apply (load_checkpoint_constructs_then_restores zero_init "checkpoint.pth" w
           dict_20_5_10 (PInt 20) (PInt 10) (PList [PInt 5])
           (state_dict model_20_5_10));
    reflexivity.
Defined.

Lemma restore_error_propagates_witness :
  let w := world_after (save_checkpoint model_20_5_10 world0) in
  let r := load_checkpoint zero_init "checkpoint.pth" w in
  let e := RuntimeError_load_state_dict [] ∅
             [("hidden_layers.0.weight"%string, [5; 20]%nat, [5; 784]%nat)] in
  network_ok model_20_5_10 = true
  ∧ (∃ fresh,
       build_network zero_init (rng world0) (PInt 784) (PInt 10)
         (PList ((λ each, PInt (Z.of_nat (out_features each)))
                   <$> hidden_layers model_20_5_10)) = Ok fresh
       ∧ outcome r = load_state_dict_result fresh (state_dict model_20_5_10)
       ∧ (is_Ok (outcome r)
          ↔ architecture fresh = architecture model_20_5_10)
       ∧ (∀ e', outcome r = Raise e' →
                architecture fresh ≠ architecture model_20_5_10
                ∧ is_size_mismatch_error e'
                ∧ ∃ mismatch,
                    e' = RuntimeError_load_state_dict [] ∅ mismatch))
  ∧ outcome r = Raise e
  ∧ ¬ is_Ok (outcome r)
  ∧ trace (world_after r)
    = trace w ++ [EvTorchLoad "checkpoint.pth";
                  EvNetwork (PInt 784) (PInt 10) (PList [PInt 5]);
                  EvLoadStateDict (state_dict model_20_5_10)].
Proof.
  intros w r e.
  assert (network_ok model_20_5_10 = true) as Hok by reflexivity.
  split; [exact Hok|]. split.
  - exact (proj1 (restore_error_propagates zero_init) model_20_5_10 world0
             Hok).
  - apply (proj2 (restore_error_propagates zero_init) "checkpoint.pth" w
             (checkpoint_dict model_20_5_10 (state_dict model_20_5_10))
             (PInt 784) (PInt 10) (PList [PInt 5]) (state_dict model_20_5_10)
             model_784_5_10);
      vm_compute; reflexivity.
Defined.

Lemma restore_succeeds_iff_shapes_equal_witness :
  ∃ m, outcome (load_checkpoint zero_init "checkpoint.pth"
                  (world_with (PDict dict_20_5_10))) = Ok m.
Proof.
  apply (proj2 (restore_succeeds_iff_shapes_equal zero_init) "checkpoint.pth"
           (world_with (PDict dict_20_5_10)) dict_20_5_10
           (PInt 20) (PInt 10) (PList [PInt 5])
           (parameter_map model_20_5_10) model_20_5_10);
    reflexivity.
Defined.

Lemma state_dict_passes_opaquely_witness :
  EvLoadStateDict (state_dict model_20_5_10)
    ∈ trace (world_with (PDict dict_20_5_10))
  ∨ state_dict model_20_5_10 = state_dict model_20_5_10.
Proof.
  apply (proj2 (proj2 (state_dict_passes_opaquely zero_init)) "checkpoint.pth"
           (world_with (PDict dict_20_5_10)) dict_20_5_10);
    [reflexivity..|].
  vm_compute. do 2 right. left.
Defined.

Lemma literal_sizes_mismatch_witness :
  network_ok model_20_5_10 = true
  ∧ input_size_of model_20_5_10 ≠ 784%nat
  ∧ ∃ e, outcome (load_checkpoint zero_init "checkpoint.pth"
                    (world_after (save_checkpoint model_20_5_10 world0)))
         = Raise e
       ∧ is_size_mismatch_error e.
Proof.
  assert (input_size_of model_20_5_10 ≠ 784%nat) as Hne by (intros H; vm_compute in H; lia).
  split_and!; [reflexivity|exact Hne|].
  apply (proj2 (literal_sizes_mismatch zero_init) model_20_5_10 world0);
    [reflexivity|by left].
Defined.

(** Claim C10 fails as stated: these records lack ['state_dict'], and the
    error is the constructor's, not a key-lookup error. *)
Lemma missing_state_dict_other_error :
  subscript record_no_widths "state_dict" = Raise (KeyError "state_dict")
  ∧ outcome (load_checkpoint zero_init "checkpoint.pth"
               (world_with record_no_widths)) = Raise IndexError
  ∧ subscript record_int_widths "state_dict" = Raise (KeyError "state_dict")
  ∧ outcome (load_checkpoint zero_init "checkpoint.pth"
               (world_with record_int_widths)) = Raise TypeError
  ∧ ¬ is_KeyError IndexError ∧ ¬ is_KeyError TypeError.
Proof. split_and!; try (vm_compute; reflexivity); simpl; tauto. Qed.

Lemma missing_key_no_model_witness :
  let d := PTensor <$> parameter_map model_20_5_10 in
  "input_size" ∈ checkpoint_keys
  ∧ d !! "input_size" = None
  ∧ ∃ e, outcome (load_checkpoint zero_init "checkpoint.pth"
                    (world_with (state_dict model_20_5_10))) = Raise e
       ∧ match d !! "input_size", d !! "output_size", d !! "hidden_layers" with
         | None, _, _ => e = KeyError "input_size"
         | Some _, None, _ => e = KeyError "output_size"
         | Some _, Some _, None => e = KeyError "hidden_layers"
         | Some a, Some b, Some c =>
             match build_network zero_init 0 a b c with
             | Ok _ => e = KeyError "state_dict"
             | Raise e' => e = e'
             end
         end.
Proof.
  intros d.
  assert ("input_size" ∈ checkpoint_keys) as Hk.
  { unfold checkpoint_keys. rewrite !elem_of_union, !elem_of_singleton. auto. }
  split_and!; [exact Hk|reflexivity|].
  apply (missing_key_no_model zero_init "checkpoint.pth"
           (world_with (state_dict model_20_5_10)) d "input_size");
    [reflexivity|exact Hk|reflexivity].
Defined.

(** ** The training loop *)

(** Arithmetic of the step counter modulo [print_every]. *)
Lemma window_mod (n : nat) :
  Z.of_nat (n `mod` 40) = Z.of_nat n `mod` 40
  ∧ Z.of_nat (S n `mod` 40) = (Z.of_nat n + 1) `mod` 40.
Proof.
  split; [apply (Nat2Z.inj_mod n 40)|].
  rewrite (Nat2Z.inj_mod (S n) 40). f_equal. lia.
Qed.

Lemma window_last (n : nat) :
  (Z.of_nat n + 1) `mod` 40 = 0 → (40 - n `mod` 40)%nat = 1%nat.
Proof.
  destruct (window_mod n) as [H1 H2]. intros H.
  Z.to_euclidean_division_equations. lia.
Qed.

Lemma window_next (n : nat) :
  (Z.of_nat n + 1) `mod` 40 ≠ 0 →
  (40 - n `mod` 40)%nat = S (40 - S n `mod` 40).
Proof.
  destruct (window_mod n) as [H1 H2]. intros H.
  Z.to_euclidean_division_equations. lia.
Qed.

Lemma window_bounds (n : nat) : (1 ≤ 40 - n `mod` 40 ≤ 40)%nat.
Proof. pose proof (Nat.mod_upper_bound n 40). lia. Qed.


Section Training_facts.
Variables Images Labels Output Loss Fw float : Type.
Variable size0 : Images → nat.
Variable resize_ : Images → nat → nat → Images.
Variable zero_grad : Fw → Fw.
Variable forward : Fw → Images → Output.
Variable criterion : Output → Labels → Loss.
Variable backward : Loss → Fw → Fw.
Variable step : Fw → Fw.
Variable item : Loss → float.
Variable fzero : float.
Variable fadd : float → float → float.
Variable fdiv : float → Z → float.

Abbreviation state := (loop_state Images Labels Output Loss Fw float).
Abbreviation one_step :=
  (training_step Images Labels Output Loss Fw
     resize_ zero_grad forward criterion backward step).
Abbreviation body :=
  (loop_body Images Labels Output Loss Fw float size0 resize_ zero_grad
     forward criterion backward step item fzero fadd fdiv).
Abbreviation epoch :=
  (run_epoch Images Labels Output Loss Fw float size0 resize_ zero_grad
     forward criterion backward step item fzero fadd fdiv).
Abbreviation run :=
  (epochs_run Images Labels Output Loss Fw float size0 resize_ zero_grad
     forward criterion backward step item fzero fadd fdiv).
Abbreviation loop :=
  (training_loop Images Labels Output Loss Fw float size0 resize_ zero_grad
     forward criterion backward step item fzero fadd fdiv).
Abbreviation loss_in :=
  (loss_of Images Labels Output Loss Fw float size0 resize_ zero_grad
     forward criterion item).
Abbreviation losses :=
  (batch_losses Images Labels Output Loss Fw float size0 resize_ zero_grad
     forward criterion backward step item).

(** What one pass of the loop body does to the loop variables. *)
Lemma loop_body_calls (e : nat) (s : state) (images : Images)
    (labels : Labels) :
  calls (body e s (images, labels))
  = calls s
    ++ [CallResize (size0 images) 784; CallZeroGrad;
        CallForward (resize_ images (size0 images) 784);
        CallCriterion
          (forward (zero_grad (framework s))
             (resize_ images (size0 images) 784)) labels;
        CallBackward
          (criterion
             (forward (zero_grad (framework s))
                (resize_ images (size0 images) 784)) labels);
        CallStep]
  ∧ framework (body e s (images, labels))
    = step (backward
              (criterion
                 (forward (zero_grad (framework s))
                    (resize_ images (size0 images) 784)) labels)
              (zero_grad (framework s)))
  ∧ steps (body e s (images, labels)) = steps s + 1.
Proof. unfold loop_body. simpl. by case_match. Qed.

Lemma inner_loop_calls (e : nat) (bs : list (Images * Labels)) (s : state) :
  kind_of <$> calls (fold_left (body e) bs s)
  = (kind_of <$> calls s) ++ mjoin (replicate (length bs) step_order).
Proof.
  revert s. induction bs as [|[images labels] bs IH]; intros s;
    cbn [fold_left length replicate].
  - by rewrite app_nil_r.
  - rewrite IH. destruct (loop_body_calls e s images labels) as (-> & _).
    by rewrite fmap_app, <-(assoc_L app).
Qed.

Lemma inner_loop_steps (e : nat) (bs : list (Images * Labels)) (s : state) :
  steps (fold_left (body e) bs s) = steps s + Z.of_nat (length bs).
Proof.
  revert s. induction bs as [|[images labels] bs IH]; intros s;
    cbn [fold_left length].
  - lia.
  - rewrite IH. destruct (loop_body_calls e s images labels) as (_ & _ & ->).
    lia.
Qed.

Lemma epochs_run_S (trainloader : nat → list (Images * Labels)) (fw : Fw)
    (n : nat) :
  run trainloader fw (S n) = epoch trainloader (run trainloader fw n) n.
Proof. unfold epochs_run. by rewrite seq_S, fold_left_app. Qed.

Lemma steps_before_S (trainloader : nat → list (Images * Labels)) (n : nat) :
  steps_before trainloader (S n)
  = (steps_before trainloader n + length (trainloader n))%nat.
Proof.
  unfold steps_before. rewrite seq_S, sum_list_with_app. simpl. lia.
Qed.

Lemma epochs_run_calls (trainloader : nat → list (Images * Labels)) (fw : Fw)
    (n : nat) :
  kind_of <$> calls (run trainloader fw n)
  = mjoin (replicate (steps_before trainloader n) step_order).
Proof.
  induction n as [|n IH]; [done|].
  rewrite epochs_run_S, steps_before_S. unfold run_epoch.
  rewrite inner_loop_calls. cbn [calls]. rewrite IH.
  by rewrite replicate_add, join_app.
Qed.

Lemma epochs_run_steps (trainloader : nat → list (Images * Labels)) (fw : Fw)
    (n : nat) :
  steps (run trainloader fw n)
  = Z.of_nat (steps_before trainloader n).
Proof.
  induction n as [|n IH]; [done|].
  rewrite epochs_run_S, steps_before_S. unfold run_epoch.
  rewrite inner_loop_steps. cbn [steps]. rewrite IH. lia.
Qed.

Lemma filter_all {A} (P : A → Prop) `{!∀ x, Decision (P x)} (l : list A) :
  Forall P l → filter P l = l.
Proof.
  induction 1 as [|x l Hx _ IH]; [done|].
  by rewrite filter_cons_True, IH.
Qed.

Lemma filter_none {A} (P : A → Prop) `{!∀ x, Decision (P x)} (l : list A) :
  Forall (λ x, ¬ P x) l → filter P l = [].
Proof.
  induction 1 as [|x l Hx _ IH]; [done|].
  by rewrite filter_cons_False.
Qed.

Lemma loop_body_printed (e : nat) (s : state) (images : Images)
    (labels : Labels) :
  let s1 := body e s (images, labels) in
  let sum := fadd (running_loss s) (loss_in (framework s) images labels) in
  if decide ((steps s + 1) `mod` 40 = 0) then
    printed s1 = printed s ++ [(Z.of_nat e + 1, epochs, fdiv sum print_every)]
    ∧ running_loss s1 = fzero
  else
    printed s1 = printed s ∧ running_loss s1 = sum.
Proof.
  unfold loop_body, print_every. simpl.
  case_decide as Hmod.
  - by rewrite Hmod.
  - by destruct (Z.eqb_spec ((steps s + 1) `mod` 40) 0).
Qed.

Lemma batch_losses_cons (images : Images) (labels : Labels)
    (bs : list (Images * Labels)) (fw : Fw) :
  losses ((images, labels) :: bs) fw
  = loss_in fw images labels
    :: losses bs (step (backward
                          (criterion
                             (forward (zero_grad fw)
                                (resize_ images (size0 images) 784)) labels)
                          (zero_grad fw))).
Proof. done. Qed.

Lemma batch_losses_length (bs : list (Images * Labels)) (fw : Fw) :
  length (losses bs fw) = length bs.
Proof.
  revert fw. induction bs as [|[images labels] bs IH]; intros fw; [done|].
  rewrite batch_losses_cons. simpl. by rewrite IH.
Qed.

(** The lines the inner loop prints, from a state with [n] steps done:
    they carry the epoch number, and the first one comes after
    [40 - n mod 40] batches and shows the losses of these batches added
    to [running_loss], divided by [print_every]. *)
Lemma inner_loop_printed (e : nat) (bs : list (Images * Labels)) (s : state)
    (n : nat) :
  steps s = Z.of_nat n →
  ∃ new,
    printed (fold_left (body e) bs s) = printed s ++ new
    ∧ Forall (λ line, line.1.1 = Z.of_nat e + 1) new
    ∧ ((40 - n `mod` 40 ≤ length bs)%nat →
       head new
       = Some (Z.of_nat e + 1, epochs,
               fdiv (accumulate fadd (running_loss s)
                       (take (40 - n `mod` 40) (losses bs (framework s))))
                    print_every)).
Proof.
  revert s n. induction bs as [|[images labels] bs IH]; intros s n Hn.
  - exists []. cbn [fold_left length]. rewrite app_nil_r.
    split_and!; [done|constructor|]. intros Hj. exfalso.
    pose proof (window_bounds n). lia.
  - cbn [fold_left length]. rewrite batch_losses_cons.
    destruct (loop_body_calls e s images labels) as (_ & Hfw & Hsteps).
    pose proof (loop_body_printed e s images labels) as Hbody.
    cbv zeta in Hbody.
    destruct (IH (body e s (images, labels)) (S n))
      as (new & Hprinted & Htags & Hfirst); [lia|].
    rewrite Hprinted. rewrite Hfw in Hfirst. clear IH Hprinted.
    rewrite Hn in Hbody.
    case_decide as Hmod; destruct Hbody as [-> Hrun].
    + eexists. rewrite <-(assoc_L app). split; [reflexivity|].
      split; [by constructor|]. intros _.
      by rewrite (window_last n Hmod).
    + exists new. split_and!; [done..|].
      rewrite (window_next n Hmod). intros Hj.
      rewrite Hfirst by lia. by rewrite Hrun.
Qed.

Lemma run_epoch_printed (trainloader : nat → list (Images * Labels))
    (s : state) (e n : nat) :
  steps s = Z.of_nat n →
  ∃ new,
    printed (epoch trainloader s e) = printed s ++ new
    ∧ Forall (λ line, line.1.1 = Z.of_nat e + 1) new
    ∧ ((40 - n `mod` 40 ≤ length (trainloader e))%nat →
       head new
       = Some (Z.of_nat e + 1, epochs,
               fdiv (accumulate fadd fzero
                       (take (40 - n `mod` 40)
                          (losses (trainloader e) (framework s))))
                    print_every)).
Proof.
  intros Hn. unfold run_epoch.
  exact (inner_loop_printed e (trainloader e)
           {| framework := framework s; steps := steps s;
              running_loss := fzero; calls := calls s;
              printed := printed s |} n Hn).
Qed.

(** Lines of the epochs run so far carry their numbers, [1] to [n]. *)
Lemma epochs_run_printed_tags (trainloader : nat → list (Images * Labels))
    (fw : Fw) (n : nat) :
  Forall (λ line, line.1.1 ≤ Z.of_nat n) (printed (run trainloader fw n)).
Proof.
  induction n as [|n IH]; [constructor|].
  rewrite epochs_run_S.
  destruct (run_epoch_printed trainloader (run trainloader fw n) n
              (steps_before trainloader n))
    as (new & -> & Htags & _); [apply epochs_run_steps|].
  apply Forall_app. split.
  - eapply Forall_impl; [exact IH|]. simpl. intros; lia.
  - eapply Forall_impl; [exact Htags|]. simpl. intros; lia.
Qed.

(** Later epochs only add lines with later numbers. *)
Lemma epochs_run_printed_later (trainloader : nat → list (Images * Labels))
    (fw : Fw) (n m : nat) :
  ∃ later,
    printed (run trainloader fw (n + m))
    = printed (run trainloader fw n) ++ later
    ∧ Forall (λ line, Z.of_nat n < line.1.1) later.
Proof.
  induction m as [|m (later & IH & Htags)].
  - exists []. rewrite Nat.add_0_r, app_nil_r. split; [done|constructor].
  - rewrite Nat.add_succ_r, epochs_run_S.
    destruct (run_epoch_printed trainloader (run trainloader fw (n + m))
                (n + m) (steps_before trainloader (n + m)))
      as (new & -> & Hnew & _); [apply epochs_run_steps|].
    exists (later ++ new). rewrite IH, <-(assoc_L app). split; [done|].
    apply Forall_app. split; [done|].
    eapply Forall_impl; [exact Hnew|]. simpl. intros; lia.
Qed.

(** The first line printed in epoch [e] of the training loop. *)
Lemma first_printed_of_epoch (trainloader : nat → list (Images * Labels))
    (fw : Fw) (e : nat) :
  (e < 3)%nat →
  (first_window trainloader e ≤ length (trainloader e))%nat →
  first_printed (Z.of_nat e + 1) (printed (loop trainloader fw))
  = Some (fdiv (accumulate fadd fzero
                  (take (first_window trainloader e)
                     (losses (trainloader e)
                        (framework (run trainloader fw e)))))
               print_every).
Proof.
  intros He Hwin. unfold training_loop, first_window in *.
  replace (Z.to_nat epochs) with (S e + (2 - e))%nat by (unfold epochs; lia).
  destruct (epochs_run_printed_later trainloader fw (S e) (2 - e))
    as (later & -> & Hlater).
  rewrite epochs_run_S.
  destruct (run_epoch_printed trainloader (run trainloader fw e) e
              (steps_before trainloader e))
    as (new & -> & Hnew & Hfirst); [apply epochs_run_steps|].
  specialize (Hfirst Hwin). unfold first_printed.
  rewrite !filter_app.
  rewrite (filter_none _ (printed (run trainloader fw e))).
  2:{ eapply Forall_impl; [apply epochs_run_printed_tags|]. simpl.
      intros; lia. }
  rewrite (filter_all _ new) by done.
  destruct new as [|line new]; [done|]. simpl in Hfirst.
  by injection Hfirst as ->.
Qed.

(** The framework state after the inner loop and after the epochs. *)
Abbreviation update :=
  (batch_update Images Labels Output Loss Fw size0 resize_ zero_grad forward
     criterion backward step).

Lemma inner_loop_framework (e : nat) (bs : list (Images * Labels)) (s : state) :
  framework (fold_left (body e) bs s) = fold_left update bs (framework s).
Proof.
  revert s. induction bs as [|[images labels] bs IH]; intros s; [done|].
  cbn [fold_left]. rewrite IH.
  by destruct (loop_body_calls e s images labels) as (_ & -> & _).
Qed.

Lemma epochs_run_framework (trainloader : nat → list (Images * Labels))
    (fw : Fw) (n : nat) :
  framework (run trainloader fw n)
  = fold_left update (mjoin (trainloader <$> seq 0 n)) fw.
Proof.
  induction n as [|n IH]; [done|].
  rewrite epochs_run_S, seq_S, fmap_app, join_app, fold_left_app, <-IH.
  unfold run_epoch. rewrite inner_loop_framework. simpl.
  by rewrite app_nil_r.
Qed.

(** Claim C6.  One pass over a batch, in the single training step cell
    and in every iteration of the training loop, makes its calls in this
    order: [resize_] of the images to rows x 784 (the rows are the batch
    size in the loop), [zero_grad], [forward] on the resized images, the
    loss from that output and the labels, [backward] on that loss, and
    only then [step].  Each call works on what the calls before it left:
    the forward pass runs in the state with the gradients cleared, the
    backward pass of its loss runs in that state, and [step] runs in the
    state the backward pass left; the state after the pass is the one
    [step] gives.  The calls of the whole loop are this sequence once per
    batch, and the state after the loop is the one these passes give, one
    after the other. *)
Theorem training_steps_in_order :
  (∀ (rows : nat) (images : Images) (labels : Labels) (fw : Fw),
     let loss :=
       criterion (forward (zero_grad fw) (resize_ images rows 784)) labels in
     one_step rows images labels fw
     = (loss, step (backward loss (zero_grad fw)),
        [CallResize rows 784; CallZeroGrad;
         CallForward (resize_ images rows 784);
         CallCriterion (forward (zero_grad fw) (resize_ images rows 784))
           labels;
         CallBackward loss; CallStep])
     ∧ kind_of <$> (one_step rows images labels fw).2 = step_order)
  ∧ (∀ (e : nat) (s : state) (images : Images) (labels : Labels),
       calls (body e s (images, labels))
       = calls s
         ++ [CallResize (size0 images) 784; CallZeroGrad;
             CallForward (resize_ images (size0 images) 784);
             CallCriterion
               (forward (zero_grad (framework s))
                  (resize_ images (size0 images) 784)) labels;
             CallBackward
               (criterion
                  (forward (zero_grad (framework s))
                     (resize_ images (size0 images) 784)) labels);
             CallStep]
       ∧ framework (body e s (images, labels))
         = step (backward
                   (criterion
                      (forward (zero_grad (framework s))
                         (resize_ images (size0 images) 784)) labels)
                   (zero_grad (framework s))))
  ∧ (∀ (trainloader : nat → list (Images * Labels)) (fw : Fw),
       kind_of <$> calls (loop trainloader fw)
       = mjoin (replicate (steps_before trainloader 3) step_order)
       ∧ framework (loop trainloader fw)
         = fold_left
             (λ fw batch,
                step (backward
                        (criterion
                           (forward (zero_grad fw)
                              (resize_ batch.1 (size0 batch.1) 784))
                           batch.2)
                        (zero_grad fw)))
             (trainloader 0%nat ++ trainloader 1%nat ++ trainloader 2%nat)
             fw).
Proof.
  split_and!.
  - done.
  - intros e s images labels.
    by destruct (loop_body_calls e s images labels) as (-> & -> & _).
  - intros trainloader fw. split; [apply epochs_run_calls|].
    unfold training_loop. rewrite epochs_run_framework. simpl.
    by rewrite app_nil_r.
Qed.

(** *** The loop variables after the loop, and every line it prints *)

(** The bookkeeping of the loop has no part in the training: after the
    loop the framework is in the state that the passes over all the
    batches of the three epochs, in their order, leave it in, and [steps]
    is the number of these batches. *)
Theorem training_loop_updates (trainloader : nat → list (Images * Labels))
    (fw : Fw) :
  framework (loop trainloader fw)
  = fold_left update
      (trainloader 0%nat ++ trainloader 1%nat ++ trainloader 2%nat) fw
  ∧ steps (loop trainloader fw) = Z.of_nat (steps_before trainloader 3)
  ∧ steps_before trainloader 3
    = length (trainloader 0%nat ++ trainloader 1%nat ++ trainloader 2%nat).
Proof.
  unfold training_loop. split_and!.
  - rewrite epochs_run_framework. simpl. by rewrite app_nil_r.
  - by rewrite epochs_run_steps.
  - unfold steps_before. simpl. rewrite !length_app. lia.
Qed.

(** The number of lines the inner loop prints. *)
Lemma inner_loop_count (e : nat) (bs : list (Images * Labels)) (s : state)
    (n : nat) :
  steps s = Z.of_nat n →
  Z.of_nat (length (printed (fold_left (body e) bs s)))
  = Z.of_nat (length (printed s))
    + ((Z.of_nat n + Z.of_nat (length bs)) `div` 40 - Z.of_nat n `div` 40).
Proof.
  revert s n. induction bs as [|[images labels] bs IH]; intros s n Hn.
  - cbn [fold_left length]. rewrite Z.add_0_r. lia.
  - cbn [fold_left length].
    destruct (loop_body_calls e s images labels) as (_ & _ & Hsteps).
    pose proof (loop_body_printed e s images labels) as Hbody.
    cbv zeta in Hbody. rewrite Hn in Hbody.
    rewrite (IH (body e s (images, labels)) (S n)) by lia.
    case_decide as Hmod; destruct Hbody as [-> _].
    + rewrite length_app. simpl length.
      Z.to_euclidean_division_equations. lia.
    + Z.to_euclidean_division_equations. lia.
Qed.

(** The lines of epoch [e] in what the whole loop prints are the lines the
    epoch adds. *)
Lemma loop_epoch_lines (trainloader : nat → list (Images * Labels)) (fw : Fw)
    (e : nat) :
  (e < 3)%nat →
  printed (epoch trainloader (run trainloader fw e) e)
  = printed (run trainloader fw e)
    ++ epoch_lines e (printed (loop trainloader fw)).
Proof.
  intros He. unfold training_loop, epoch_lines.
  replace (Z.to_nat epochs) with (S e + (2 - e))%nat by (unfold epochs; lia).
  destruct (epochs_run_printed_later trainloader fw (S e) (2 - e))
    as (later & -> & Hlater).
  rewrite epochs_run_S.
  destruct (run_epoch_printed trainloader (run trainloader fw e) e
              (steps_before trainloader e))
    as (new & -> & Hnew & _); [apply epochs_run_steps|].
  rewrite !filter_app.
  rewrite (filter_none _ (printed (run trainloader fw e))).
  2:{ eapply Forall_impl; [apply epochs_run_printed_tags|]. simpl.
      intros; lia. }
  rewrite (filter_all _ new) by done.
  rewrite (filter_none _ later).
  2:{ eapply Forall_impl; [exact Hlater|]. simpl. intros; lia. }
  by rewrite app_nil_r.
Qed.

(** The loop prints one line for every multiple of [print_every] that the
    step counter reaches: epoch [e] prints as many lines as there are
    multiples of 40 above the steps made before it and up to the steps
    made after it.  With 938 batches in every epoch these are 23, 23 and
    24 lines, as in the notebook's output. *)
Theorem printed_line_counts (trainloader : nat → list (Images * Labels))
    (fw : Fw) (e : nat) :
  (e < 3)%nat →
  Z.of_nat (length (epoch_lines e (printed (loop trainloader fw))))
  = Z.of_nat (steps_before trainloader (S e)) `div` 40
    - Z.of_nat (steps_before trainloader e) `div` 40
  ∧ ((∀ e', length (trainloader e') = 938%nat) →
     length (epoch_lines e (printed (loop trainloader fw)))
     = match e with 2%nat => 24%nat | _ => 23%nat end).
Proof.
  intros He.
  assert (Z.of_nat (length (epoch_lines e (printed (loop trainloader fw))))
          = Z.of_nat (steps_before trainloader (S e)) `div` 40
            - Z.of_nat (steps_before trainloader e) `div` 40) as Hcount.
  { pose proof (f_equal (λ l, Z.of_nat (length l))
                  (loop_epoch_lines trainloader fw e He)) as Hlen.
    simpl in Hlen. unfold run_epoch in Hlen.
    rewrite (inner_loop_count e (trainloader e) _
               (steps_before trainloader e)) in Hlen
      by apply epochs_run_steps.
    cbn [printed] in Hlen. rewrite length_app, Nat2Z.inj_add in Hlen.
    rewrite steps_before_S, Nat2Z.inj_add. lia. }
  split; [exact Hcount|]. intros H938.
  assert (∀ n, steps_before trainloader n = (n * 938)%nat) as Hsteps.
  { induction n as [|n IH]; [done|]. rewrite steps_before_S, IH, H938. lia. }
  rewrite !Hsteps in Hcount.
  destruct e as [|[|[|e]]]; [| | |lia];
    apply Nat2Z.inj; rewrite Hcount; reflexivity.
Qed.

Lemma window_restart (n : nat) :
  (Z.of_nat n + 1) `mod` 40 = 0 → (40 - S n `mod` 40)%nat = 40%nat.
Proof. destruct (window_mod n) as [_ H2]. intros H. lia. Qed.

(** Every line the inner loop prints, from a state with [n] steps done:
    the [i]-th line is there when its window is complete, and shows the
    sum of the losses of its window ([running_loss] included in the first
    one) divided by [print_every]. *)
Lemma inner_loop_lines (e : nat) (bs : list (Images * Labels)) (s : state)
    (n : nat) :
  steps s = Z.of_nat n →
  ∃ new,
    printed (fold_left (body e) bs s) = printed s ++ new
    ∧ ∀ i,
        new !! i
        = if decide (window_start (40 - n `mod` 40) (S i) ≤ length bs)%nat
          then Some (Z.of_nat e + 1, epochs,
                     fdiv (accumulate fadd
                             (match i with
                              | O => running_loss s
                              | S _ => fzero
                              end)
                             (take (window_length (40 - n `mod` 40) i)
                                (drop (window_start (40 - n `mod` 40) i)
                                   (losses bs (framework s)))))
                          print_every)
          else None.
Proof.
  revert s n. induction bs as [|[images labels] bs IH]; intros s n Hn.
  - exists []. cbn [fold_left length]. rewrite app_nil_r. split; [done|].
    intros i. pose proof (window_bounds n). simpl.
    case_decide; [lia|done].
  - cbn [fold_left length]. rewrite batch_losses_cons.
    destruct (loop_body_calls e s images labels) as (_ & Hfw & Hsteps).
    pose proof (loop_body_printed e s images labels) as Hbody.
    cbv zeta in Hbody. rewrite Hn in Hbody.
    destruct (IH (body e s (images, labels)) (S n))
      as (new & Hprinted & Hlines); [lia|].
    rewrite Hprinted. rewrite Hfw in Hlines. clear IH Hprinted.
    case_decide as Hmod; destruct Hbody as [-> Hrun]; rewrite Hrun in Hlines.
    + rewrite (window_restart n Hmod) in Hlines. rewrite (window_last n Hmod).
      eexists. rewrite <-(assoc_L app). split; [reflexivity|].
      intros [|i].
      * rewrite decide_True by (cbn [window_start]; lia). done.
      * rewrite lookup_app_r by (simpl; lia). simpl length.
        replace (S i - 1)%nat with i by lia. rewrite Hlines.
        cbn [window_start window_length]. simpl drop.
        replace (40 * S i)%nat with (40 + 40 * i)%nat by lia.
        replace (window_start 40 i) with (40 * i)%nat
          by (destruct i; simpl; lia).
        replace (window_length 40 i) with 40%nat by (by destruct i).
        repeat case_decide; try lia; [|done]. by destruct i.
    + rewrite (window_next n Hmod).
      exists new. split; [done|]. intros [|i]; rewrite Hlines.
      * cbn [window_start window_length]. simpl drop.
        repeat case_decide; try lia; done.
      * cbn [window_start window_length]. simpl drop.
        repeat case_decide; try lia; done.
Qed.

(** The lines of an epoch, one by one.  With [k] the batches up to the
    first multiple of [print_every], line [i] of epoch [e] is printed
    when the epoch has at least [k + 40 * i] batches, and its value is
    the sum of the losses of the batches of its window divided by
    [print_every]: the first [k] batches for line 0, and the 40 batches
    from batch [k + 40 * (i - 1)] on for a later line.  The losses after
    the last complete window are in no line. *)
Theorem epoch_line_content (trainloader : nat → list (Images * Labels))
    (fw : Fw) (e i : nat) :
  (e < 3)%nat →
  let k := first_window trainloader e in
  epoch_lines e (printed (loop trainloader fw)) !! i
  = if decide (window_start k (S i) ≤ length (trainloader e))%nat
    then Some (Z.of_nat e + 1, epochs,
               fdiv (accumulate fadd fzero
                       (take (window_length k i)
                          (drop (window_start k i)
                             (losses (trainloader e)
                                (framework (run trainloader fw e))))))
                    print_every)
    else None.
Proof.
  intros He k. subst k. unfold first_window.
  pose proof (loop_epoch_lines trainloader fw e He) as Hlines.
  unfold run_epoch in Hlines.
  destruct (inner_loop_lines e (trainloader e)
              {| framework := framework (run trainloader fw e);
                 steps := steps (run trainloader fw e);
                 running_loss := fzero;
                 calls := calls (run trainloader fw e);
                 printed := printed (run trainloader fw e) |}
              (steps_before trainloader e))
    as (new & Hnew & Hi); [apply epochs_run_steps|].
  rewrite Hnew in Hlines. cbn [printed] in Hlines.
  apply app_inv_head in Hlines as <-. rewrite Hi. cbn [framework running_loss].
  by destruct i.
Qed.

End Training_facts.

(** *** Exact arithmetic on the losses *)

Lemma accumulate_pos (losses : list Q) (acc : Q) :
  (0 <= acc)%Q → Forall (Qlt 0%Q) losses → (0 < acc)%Q ∨ losses ≠ [] →
  (0 < accumulate Qplus acc losses)%Q.
Proof.
  unfold accumulate. revert acc.
  induction losses as [|x losses IH]; intros acc Hacc Hpos Hne; simpl.
  - by destruct Hne.
  - apply Forall_cons in Hpos as [Hx Hpos].
    assert (0 < acc + x)%Q as Hsum.
    { apply Qlt_le_trans with (0 + x)%Q; [by rewrite Qplus_0_l|].
      by apply Qplus_le_l. }
    apply IH; [by apply Qlt_le_weak|done|by left].
Qed.

Lemma short_window_underestimates (window : list Q) :
  Forall (Qlt 0%Q) window → (0 < length window < 40)%nat →
  (Qdiv_int (accumulate Qplus 0%Q window) print_every < mean window)%Q.
Proof.
  intros Hpos Hlen. unfold Qdiv_int, mean, print_every, Qdiv.
  assert (0 < accumulate Qplus 0%Q window)%Q as Hsum.
  { apply accumulate_pos; [done..|]. right. by destruct window; simpl in *; [lia|]. }
  apply Qmult_lt_l; [done|].
  destruct (Z.of_nat (length window)) as [|p|p] eqn:Hp; [lia| |lia].
  unfold Qlt, Qinv, inject_Z. simpl. lia.
Qed.

Lemma steps_before_constant (Images Labels : Type)
    (trainloader : nat → list (Images * Labels)) (n e : nat) :
  (∀ e', length (trainloader e') = n) →
  steps_before trainloader e = (e * n)%nat.
Proof.
  intros Hn. unfold steps_before.
  induction e as [|e IH]; [done|].
  rewrite seq_S, sum_list_with_app, IH. simpl. rewrite Hn. lia.
Qed.

Section Exact_losses.
Variables Images Labels Output Loss Fw : Type.
Variable size0 : Images → nat.
Variable resize_ : Images → nat → nat → Images.
Variable zero_grad : Fw → Fw.
Variable forward : Fw → Images → Output.
Variable criterion : Output → Labels → Loss.
Variable backward : Loss → Fw → Fw.
Variable step : Fw → Fw.
Variable item : Loss → Q.

Abbreviation run_exact :=
  (epochs_run Images Labels Output Loss Fw Q size0 resize_ zero_grad
     forward criterion backward step item 0%Q Qplus Qdiv_int).
Abbreviation loop_exact :=
  (training_loop Images Labels Output Loss Fw Q size0 resize_ zero_grad
     forward criterion backward step item 0%Q Qplus Qdiv_int).
Abbreviation losses_exact :=
  (batch_losses Images Labels Output Loss Fw Q size0 resize_ zero_grad
     forward criterion backward step item).

(** Claim C9, as amended.  [running_loss] restarts from zero in every
    epoch and the step counter does not, so in an epoch that prints at
    all the first printed value is the sum of the losses of the first
    [k] batches of that epoch divided by [print_every], where [k] is
    [print_every] minus the steps made before the epoch modulo
    [print_every].  [k] is less than [print_every] exactly when the
    steps made before the epoch are not a multiple of [print_every]; the
    value then underestimates the mean loss of these [k] batches, for
    positive losses.  With 938 batches in every epoch, as in the
    notebook's run, this is so in every epoch after the first. *)
Theorem first_print_of_epoch (trainloader : nat → list (Images * Labels))
    (fw : Fw) (e : nat) :
  (e < 3)%nat →
  (first_window trainloader e ≤ length (trainloader e))%nat →
  let window :=
    take (first_window trainloader e)
      (losses_exact (trainloader e) (framework (run_exact trainloader fw e))) in
  steps (run_exact trainloader fw e) = Z.of_nat (steps_before trainloader e)
  ∧ first_printed (Z.of_nat e + 1) (printed (loop_exact trainloader fw))
    = Some (Qdiv_int (accumulate Qplus 0%Q window) print_every)
  ∧ length window = first_window trainloader e
  ∧ (1 ≤ first_window trainloader e ≤ 40)%nat
  ∧ ((first_window trainloader e < 40)%nat
     ↔ (steps_before trainloader e `mod` 40)%nat ≠ 0%nat)
  ∧ ((steps_before trainloader e `mod` 40)%nat ≠ 0%nat →
     Forall (Qlt 0%Q) window →
     (Qdiv_int (accumulate Qplus 0%Q window) print_every < mean window)%Q)
  ∧ ((∀ e', length (trainloader e') = 938%nat) → (1 ≤ e)%nat →
     (first_window trainloader e < 40)%nat).
Proof.
  intros He Hwin window.
  pose proof (window_bounds (steps_before trainloader e)) as Hk.
  fold (first_window trainloader e) in Hk.
  assert (length window = first_window trainloader e) as Hlen.
  { subst window. rewrite length_take, batch_losses_length. lia. }
  split_and!.
  - apply epochs_run_steps.
  - by apply first_printed_of_epoch.
  - done.
  - lia.
  - lia.
  - unfold first_window in *. lia.
  - intros Hmod Hpos. apply short_window_underestimates; [done|].
    unfold first_window in *. lia.
  - intros H938 He1. unfold first_window.
    rewrite (steps_before_constant _ _ trainloader 938 e H938).
    destruct e as [|[|[|e]]]; [lia| | |lia]; vm_compute; lia.
Qed.
End Exact_losses.

Lemma accumulate_ones (window : list Q) (acc : Q) :
  Forall (λ x, x = 1%Q) window →
  (accumulate Qplus acc window == acc + inject_Z (Z.of_nat (length window)))%Q.
Proof.
  unfold accumulate. intros Hones. revert acc.
  induction Hones as [|x window -> _ IH]; intros acc; simpl length.
  - simpl. unfold inject_Z. simpl. ring.
  - cbn [fold_left]. rewrite IH, Nat2Z.inj_succ, <-Z.add_1_l, inject_Z_plus.
    ring.
Qed.

(** Claim C9 fails as stated: with 40 batches in every epoch and every
    loss equal to 1, the first value printed in the second epoch is the
    sum of all 40 losses of its window divided by 40, which is the mean
    loss 1 and not less; no sum of fewer than 40 of the losses gives it. *)
Lemma first_print_full_window :
  steps_before (constant_loader 40) 1 = 40%nat
  ∧ length (constant_losses 40) = 40%nat
  ∧ first_printed 2 (printed (constant_loss_run 40))
    = Some (Qdiv_int (accumulate Qplus 0%Q (constant_losses 40)) print_every)
  ∧ (Qdiv_int (accumulate Qplus 0%Q (constant_losses 40)) print_every
     == mean (constant_losses 40))%Q
  ∧ (∀ window : list Q,
       Forall (λ x, x = 1%Q) window → (length window < 40)%nat →
       ¬ (Qdiv_int (accumulate Qplus 0%Q window) print_every
          == Qdiv_int (accumulate Qplus 0%Q (constant_losses 40)) print_every)%Q).
Proof.
  split_and!; [reflexivity|reflexivity|vm_compute; reflexivity
              |vm_compute; reflexivity|].
  intros window Hones Hlen. unfold Qdiv_int, print_every.
  rewrite (accumulate_ones window 0%Q Hones).
  intros Heq. apply Qmult_inj_r in Heq; [|done].
  revert Heq. vm_compute (accumulate _ _ _).
  unfold Qeq, inject_Z, Qplus. simpl. lia.
Qed.

Lemma first_print_of_epoch_witness :
  let window := take 22 (constant_losses 938) in
  (first_window (constant_loader 938) 1 ≤ length (constant_loader 938 1%nat))%nat
  ∧ first_printed 2 (printed (constant_loss_run 938))
    = Some (Qdiv_int (accumulate Qplus 0%Q window) print_every)
  ∧ (Qdiv_int (accumulate Qplus 0%Q window) print_every < mean window)%Q.
Proof.
  intros window.
  assert (first_window (constant_loader 938) 1
          ≤ length (constant_loader 938 1%nat))%nat as Hwin.
  { vm_compute. lia. }
  destruct (first_print_of_epoch unit unit unit Q unit
              (λ _, 64%nat) (λ images _ _, images) (λ fw, fw) (λ _ _, tt)
              (λ _ _, 1%Q) (λ _ fw, fw) (λ fw, fw) (λ loss, loss)
              (constant_loader 938) tt 1%nat ltac:(lia) Hwin)
    as (_ & Hfirst & _ & _ & _ & Hunder & _).
  split_and!; [exact Hwin|exact Hfirst|].
  apply Hunder; [vm_compute; lia|].
  vm_compute. repeat (constructor; [reflexivity|]). constructor.
Defined.

(** ** More about saving and loading *)

Lemma same_arch_refl (m : network) : same_arch m m.
Proof.
  unfold same_arch, same_Linear_arch. split_and!; try done.
  by apply Forall2_same_length_lookup_2; [done|intros i l1 l2 ? ?; simplify_eq].
Qed.

Lemma state_dict_keys (m : network) :
  keys (state_dict m) = Ok (list_to_set (named_parameters m).*1).
Proof.
  unfold keys, state_dict, parameter_map.
  by rewrite dom_fmap_L, dom_list_to_map_L.
Qed.

(** The state dict of a model, saved to the file, loaded and restored
    into the same model: the restore succeeds, the model is what it
    was, the keys printed are the names of its parameters, and the file
    holds the state dict. *)
Theorem state_dict_round_trip (model : network) (w : world) :
  let r := save_load_restore model w in
  outcome r = Ok (model, list_to_set (named_parameters model).*1)
  ∧ fs (world_after r) !! "checkpoint.pth" = Some (state_dict model)
  ∧ trace (world_after r)
    = trace w ++ [EvStateDict (state_dict model);
                  EvTorchSave (state_dict model) "checkpoint.pth";
                  EvTorchLoad "checkpoint.pth";
                  EvLoadStateDict (state_dict model)].
Proof.
  unfold save_load_restore, save_state_dict, load_saved_state_dict, bind,
    state_dict_call, torch_save, torch_load, lift, load_state_dict, ret, log,
    outcome, world_after.
  cbn [fs trace fst snd]. rewrite lookup_insert_eq. cbn [fst snd fs trace].
  rewrite state_dict_keys. cbn [fst snd fs trace].
  rewrite (restore_same_arch model model (same_arch_refl model)).
  cbn [fst snd fs trace]. rewrite lookup_insert_eq.
  split_and!; [done|done|]. by rewrite <-!(assoc_L app).
Qed.

(** *** What the names of the parameters look like *)

Lemma hidden_parameters_names_lt (i : nat) (ls : list Linear) (k : string) :
  k ∈ (hidden_parameters i ls).*1 →
  ∃ j f, (i ≤ j < i + length ls)%nat ∧ f ∈ ["weight"; "bias"]%string
         ∧ k = hidden_prefix j +:+ f.
Proof.
  revert i. induction ls as [|l ls IH]; intros i; simpl.
  - by intros ?%elem_of_nil.
  - rewrite !elem_of_cons. intros [->|[->|Hk]].
    + exists i, "weight"%string. split_and!; [lia|lia|repeat constructor|done].
    + exists i, "bias"%string. split_and!; [lia|lia|repeat constructor|done].
    + destruct (IH _ Hk) as (j & f & ? & ? & ->). exists j, f.
      split_and!; [lia|lia|done|done].
Qed.

Lemma named_parameters_names (m : network) (k : string) :
  k ∈ (named_parameters m).*1 →
  (∃ j f, (j < length (hidden_layers m))%nat ∧ f ∈ ["weight"; "bias"]%string
          ∧ k = hidden_prefix j +:+ f)
  ∨ k = ("output." +:+ "weight")%string ∨ k = ("output." +:+ "bias")%string.
Proof.
  unfold named_parameters. rewrite fmap_app, elem_of_app. intros [Hk|Hk].
  - left. apply hidden_parameters_names_lt in Hk as (j & f & ? & ? & ->).
    exists j, f. split_and!; [lia|done|done].
  - right. simpl in Hk. rewrite !elem_of_cons, elem_of_nil in Hk. tauto.
Qed.

(** No parameter is called like a key of the checkpoint record. *)
Lemma input_size_not_a_parameter (m : network) :
  parameter_map m !! "input_size" = None.
Proof.
  apply not_elem_of_list_to_map_1. intros Hk.
  apply named_parameters_names in Hk as [(j & f & _ & _ & Hk)|[Hk|Hk]].
  - unfold hidden_prefix in Hk.
    apply (f_equal String.list_ascii_of_string) in Hk.
    rewrite !chars_app in Hk. simpl in Hk. discriminate Hk.
  - discriminate Hk.
  - discriminate Hk.
Qed.

Lemma subscript_state_dict_input_size (m : network) :
  subscript (state_dict m) "input_size" = Raise (KeyError "input_size").
Proof.
  unfold state_dict, subscript.
  by rewrite lookup_fmap, input_size_not_a_parameter.
Qed.

Section More_checkpoint_facts.
Variable init : N → string → list nat → list Z.

(** After the cell that saves the bare state dict of a model, whatever
    the model, [load_checkpoint] on the file raises the key-lookup error
    for ['input_size'], right after [torch.load]: no model is
    constructed and no restore is called. *)
Theorem bare_state_dict_not_a_checkpoint (model : network) (w : world) :
  let r := load_checkpoint init "checkpoint.pth"
             (world_after (save_state_dict model w)) in
  outcome r = Raise (KeyError "input_size")
  ∧ trace (world_after r)
    = trace w ++ [EvStateDict (state_dict model);
                  EvTorchSave (state_dict model) "checkpoint.pth";
                  EvTorchLoad "checkpoint.pth"].
Proof.
  unfold load_checkpoint, save_state_dict, bind, state_dict_call, torch_save,
    torch_load, lift, ret, log, outcome, world_after.
  cbn [fs trace fst snd]. rewrite lookup_insert_eq. cbn [fst snd].
  rewrite subscript_state_dict_input_size. cbn [fst snd trace].
  split; [done|]. by rewrite <-!(assoc_L app).
Qed.

(** [load_checkpoint] only reads: whatever the file holds and whether it
    returns or raises, every file is afterwards what it was, and the
    calls it adds to the trace contain no [torch.save]. *)
Theorem load_checkpoint_reads_only (fp : string) (w : world) :
  let r := load_checkpoint init fp w in
  fs (world_after r) = fs w
  ∧ ∃ new, trace (world_after r) = trace w ++ new
         ∧ Forall (λ ev, ∀ obj path, ev ≠ EvTorchSave obj path) new.
Proof.
  unfold load_checkpoint, bind, torch_load, lift, Network, load_state_dict,
    ret, log, world_after.
  repeat case_match; simplify_eq/=;
    (split; [done|]; eexists; rewrite <-?(assoc_L app); split; [done|];
     by repeat constructor).
Qed.

End More_checkpoint_facts.

(** *** What a successful construction and a successful restore tell *)

Lemma as_dim_Ok (v : pyval) (n : nat) :
  as_dim v = Ok n → v = PInt (Z.of_nat n).
Proof.
  destruct v as [z| | |]; simpl; try done.
  destruct (Z.ltb_spec z 0); [done|]. intros [= <-]. f_equal. lia.
Qed.

Section Construction_inversion.
Variable init : N → string → list nat → list Z.

Lemma Linear_new_Ok (n : N) (prefix : string) (in_v out_v : pyval) (l : Linear) :
  Linear_new init n prefix in_v out_v = Ok l →
  ∃ i o, in_v = PInt (Z.of_nat i) ∧ out_v = PInt (Z.of_nat o)
         ∧ l = fresh_Linear init n prefix i o.
Proof.
  unfold Linear_new.
  destruct (as_dim in_v) as [i|] eqn:Hi; [|done].
  destruct (as_dim out_v) as [o|] eqn:Ho; [|done]. simpl. intros [= <-].
  exists i, o. by rewrite (as_dim_Ok _ _ Hi), (as_dim_Ok _ _ Ho).
Qed.

Lemma build_hidden_Ok (n : N) (i : nat) (prev : nat) (ws : list pyval)
    (ls : list Linear) :
  build_hidden init n i (PInt (Z.of_nat prev)) ws = Ok ls →
  ∃ hs, ws = (λ h, PInt (Z.of_nat h)) <$> hs
        ∧ ls = fresh_hidden init n i prev hs.
Proof.
  revert i prev ls. induction ws as [|h ws IH]; intros i prev ls; simpl.
  - intros [= <-]. by exists [].
  - destruct (Linear_new init n (hidden_prefix i) (PInt (Z.of_nat prev)) h)
      as [l|] eqn:Hl; [|done]. simpl.
    apply Linear_new_Ok in Hl as (p & o & [= Hp%Nat2Z.inj] & -> & ->).
    destruct (build_hidden init n (S i) (PInt (Z.of_nat o)) ws)
      as [ls'|] eqn:Hls; [|done]. simpl. intros [= <-].
    apply IH in Hls as (hs & -> & ->). exists (o :: hs). by subst.
Qed.

Lemma build_network_Ok (n : N) (a b c : pyval) (fresh : network) :
  build_network init n a b c = Ok fresh →
  ∃ i o h0 hs,
    a = PInt (Z.of_nat i) ∧ b = PInt (Z.of_nat o)
    ∧ c = PList ((λ h, PInt (Z.of_nat h)) <$> h0 :: hs)
    ∧ fresh = {| hidden_layers := fresh_hidden init n 0 i (h0 :: hs);
                 output := fresh_Linear init n "output." (List.last hs h0) o;
                 dropout := 1 # 2 |}.
Proof.
  unfold build_network. destruct c as [|[|h0v hsv]| |]; try done.
  destruct (build_hidden init n 0 a (h0v :: hsv)) as [hidden|] eqn:Hh; [|done].
  simpl. destruct (Linear_new init n "output." (List.last hsv h0v) b)
    as [out|] eqn:Hout; [|done]. simpl. intros [= <-].
  assert (∃ i, a = PInt (Z.of_nat i)) as [i ->].
  { simpl in Hh.
    destruct (Linear_new init n (hidden_prefix 0) a h0v) as [l|] eqn:Hl;
      [|done].
    apply Linear_new_Ok in Hl as (i & _ & -> & _). by exists i. }
  apply build_hidden_Ok in Hh as (hs' & Hws & ->).
  destruct hs' as [|h0 hs]; [done|]. rewrite fmap_cons in Hws.
  injection Hws as -> ->.
  rewrite (last_fmap_default (λ h, PInt (Z.of_nat h))) in Hout.
  apply Linear_new_Ok in Hout as (p & o & [= Hp%Nat2Z.inj] & -> & ->).
  exists i, o, h0, hs. by subst.
Qed.

End Construction_inversion.

Lemma existsb_false {A} (f : A → bool) (l : list A) :
  existsb f l = false → ∀ x, x ∈ l → f x = false.
Proof.
  induction l as [|a l IH]; simpl; [by intros _ x ?%elem_of_nil|].
  intros [Ha Hl]%orb_false_iff x [->|Hx]%elem_of_cons; auto.
Qed.

Lemma hidden_parameters_load (sd : gmap string pyval) (i : nat)
    (ls : list Linear) :
  hidden_parameters i (load_hidden sd i ls)
  = (λ kp, (kp.1, copy_param sd kp.1 kp.2)) <$> hidden_parameters i ls.
Proof.
  revert i. induction ls as [|l ls IH]; intros i; [done|].
  cbn [load_hidden hidden_parameters]. by rewrite fmap_app, IH.
Qed.

(** The parameters after a restore: each one is what the restore copied
    from the mapping, under the same name. *)
Lemma named_parameters_load (sd : gmap string pyval) (m : network) :
  named_parameters (load_network sd m)
  = (λ kp, (kp.1, copy_param sd kp.1 kp.2)) <$> named_parameters m.
Proof.
  unfold named_parameters, load_network. cbn [hidden_layers output].
  by rewrite hidden_parameters_load, fmap_app.
Qed.

(** A restore that succeeds was given a dictionary that holds exactly one
    tensor per parameter of the model, and the state dict of the model it
    gives is that dictionary. *)
Lemma restore_Ok (m m' : network) (sd : pyval) :
  load_state_dict_result m sd = Ok m' →
  state_dict m' = sd ∧ (∃ d, sd = PDict d ∧ m' = load_network d m).
Proof.
  unfold load_state_dict_result. destruct sd as [| | |d]; try done.
  destruct (not_a_tensor d (named_parameters m)) eqn:Htensor; [done|].
  case_decide as Hreport; [|done]. intros [= <-].
  destruct Hreport as (Hmiss & Hunexp & Hsize). split; [|by eauto].
  assert (∀ k p, (k, p) ∈ named_parameters m →
            ∃ t, d !! k = Some (PTensor t) ∧ copy_param d k p = t) as Hall.
  { intros k p Hp.
    pose proof (existsb_false _ _ Htensor _ Hp) as Ht.
    pose proof (proj1 (omap_nil_iff _ _) Hmiss _ Hp) as Hm.
    pose proof (proj1 (omap_nil_iff _ _) Hsize _ Hp) as Hs.
    unfold copy_param. simpl in *. unfold check_param in *.
    destruct (d !! k) as [[| |t|]|]; try done.
    exists t. split; [done|]. by case_decide. }
  unfold state_dict. f_equal. apply map_eq. intros k.
  rewrite lookup_fmap. unfold parameter_map.
  destruct (decide (k ∈ (named_parameters m).*1)) as [Hk|Hk].
  - apply list_elem_of_fmap in Hk as ([k' p] & -> & Hp). simpl.
    destruct (Hall _ _ Hp) as (t & -> & Ht).
    erewrite elem_of_list_to_map_1; [done| |].
    + rewrite named_parameters_load, <-list_fmap_compose.
      apply named_parameters_NoDup.
    + rewrite named_parameters_load. apply list_elem_of_fmap.
      exists (k', p). split; [simpl; by rewrite Ht|done].
  - rewrite not_elem_of_list_to_map_1.
    + symmetry. apply not_elem_of_dom. intros Hd.
      assert (k ∈ unexpected_keys_of d (named_parameters m)) as Hin.
      { unfold unexpected_keys_of. apply elem_of_difference.
        by rewrite elem_of_list_to_set. }
      rewrite Hunexp in Hin. by apply elem_of_empty in Hin.
    + by rewrite named_parameters_load, <-list_fmap_compose.
Qed.

Section Load_checkpoint_sound.
Variable init : N → string → list nat → list Z.

Lemma load_checkpoint_Ok (fp : string) (w : world) (m : network) :
  outcome (load_checkpoint init fp w) = Ok m →
  ∃ d a b c sd fresh,
    fs w !! fp = Some (PDict d)
    ∧ d !! "input_size" = Some a ∧ d !! "output_size" = Some b
    ∧ d !! "hidden_layers" = Some c ∧ d !! "state_dict" = Some sd
    ∧ build_network init (rng w) a b c = Ok fresh
    ∧ load_state_dict_result fresh sd = Ok m.
Proof.
  unfold load_checkpoint, bind, torch_load, lift, Network, load_state_dict,
    ret, outcome.
  destruct (fs w !! fp) as [[| | |d]|] eqn:Hfile; try done. cbn [subscript].
  destruct (d !! "input_size") as [a|] eqn:Ha; [|done].
  destruct (d !! "output_size") as [b|] eqn:Hb; [|done].
  destruct (d !! "hidden_layers") as [c|] eqn:Hc; [|done].
  cbn [fst snd rng log].
  destruct (build_network init (rng w) a b c) as [fresh|] eqn:Hnew; [|done].
  destruct (d !! "state_dict") as [sd|] eqn:Hsd; [|done].
  destruct (load_state_dict_result fresh sd) as [m'|] eqn:Hm; [|done].
  cbn [fst]. intros [= <-]. by exists d, a, b, c, sd, fresh.
Qed.

(** Whatever the file holds, a model that [load_checkpoint] returns agrees
    with the record in the file: the record has the four keys, its
    ['state_dict'] is a mapping of tensors with exactly the names and the
    shapes of the parameters of the model returned, and the model
    satisfies the invariant of [Network] objects. *)
Theorem load_checkpoint_sound (fp : string) (w : world) (m : network) :
  outcome (load_checkpoint init fp w) = Ok m →
  ∃ (d : gmap string pyval) (saved : gmap string tensor),
    fs w !! fp = Some (PDict d)
    ∧ checkpoint_keys ⊆ dom d
    ∧ d !! "state_dict" = Some (PDict (PTensor <$> saved))
    ∧ shapes saved = shapes (parameter_map m)
    ∧ network_ok m = true.
Proof.
  intros (d & a & b & c & sd & fresh & Hfile & Ha & Hb & Hc & Hsd & Hnew & Hm)
    %load_checkpoint_Ok.
  apply build_network_Ok in Hnew as (i & o & h0 & hs & -> & -> & -> & ->).
  apply restore_Ok in Hm as (<- & sd' & _ & ->).
  exists d, (parameter_map
               (load_network sd'
                  {| hidden_layers := fresh_hidden init (rng w) 0 i (h0 :: hs);
                     output := fresh_Linear init (rng w) "output."
                                 (List.last hs h0) o;
                     dropout := 1 # 2 |})).
  split_and!; [done| |exact Hsd|done|].
  - intros k. unfold checkpoint_keys.
    rewrite !elem_of_union, !elem_of_singleton, elem_of_dom.
    intros [[[->| ->]| ->]| ->]; eauto.
  - rewrite load_network_ok. apply fresh_network_ok.
Qed.

End Load_checkpoint_sound.

Lemma load_checkpoint_sound_witness :
  outcome (load_checkpoint zero_init "checkpoint.pth"
             (world_with (PDict dict_20_5_10))) = Ok model_20_5_10
  ∧ ∃ (d : gmap string pyval) (saved : gmap string tensor),
      fs (world_with (PDict dict_20_5_10)) !! "checkpoint.pth"
      = Some (PDict d)
      ∧ checkpoint_keys ⊆ dom d
      ∧ d !! "state_dict" = Some (PDict (PTensor <$> saved))
      ∧ shapes saved = shapes (parameter_map model_20_5_10)
      ∧ network_ok model_20_5_10 = true.
Proof.
  assert (outcome (load_checkpoint zero_init "checkpoint.pth"
                     (world_with (PDict dict_20_5_10))) = Ok model_20_5_10)
    as Hrun by (vm_compute; reflexivity).
  split; [exact Hrun|].
  exact (load_checkpoint_sound zero_init "checkpoint.pth"
           (world_with (PDict dict_20_5_10)) model_20_5_10 Hrun).
Defined.

(** *** Restoring works only for the same architecture *)

Lemma chained_Linear_ok (prev : nat) (ls : list Linear) (j : nat) (l : Linear) :
  chained prev ls = true → ls !! j = Some l → Linear_ok l = true.
Proof.
  revert prev j. induction ls as [|l' ls IH]; intros prev [|j]; simpl; try done.
  - rewrite !andb_true_iff. by intros [[_ ?] _] [= <-].
  - rewrite !andb_true_iff. intros [_ ?] ?. by eapply IH.
Qed.

Lemma network_ok_layers (m : network) (j : nat) (l : Linear) :
  network_ok m = true → hidden_layers m !! j = Some l → Linear_ok l = true.
Proof.
  intros (l0 & ls & Hh & Hch & _)%network_ok_inv Hj. rewrite Hh in Hj.
  by eapply chained_Linear_ok.
Qed.

Lemma Linear_ok_shape (l1 l2 : Linear) :
  Linear_ok l1 = true → Linear_ok l2 = true →
  tshape (weight l1) = tshape (weight l2) →
  in_features l1 = in_features l2 ∧ out_features l1 = out_features l2.
Proof.
  unfold Linear_ok. rewrite !andb_true_iff, !bool_decide_eq_true.
  intros [-> _] [-> _] [= -> ->]. done.
Qed.

Lemma parameter_map_no_layer (m : network) (j : nat) :
  (length (hidden_layers m) ≤ j)%nat →
  parameter_map m !! (hidden_prefix j +:+ "weight") = None.
Proof.
  intros Hj. apply not_elem_of_list_to_map_1. intros Hk.
  apply named_parameters_names in Hk as [(j' & f & Hj' & Hf & Hk)|[Hk|Hk]].
  - apply hidden_key_inj in Hk as [-> _]; [lia|repeat constructor|done].
  - by apply hidden_key_not_output in Hk.
  - by apply hidden_key_not_output in Hk.
Qed.

Lemma shapes_same_depth (m1 m2 : network) :
  shapes (parameter_map m2) = shapes (parameter_map m1) →
  (length (hidden_layers m2) ≤ length (hidden_layers m1))%nat.
Proof.
  intros Hshapes. apply Nat.nlt_ge. intros Hlt.
  destruct (lookup_lt_is_Some_2 (hidden_layers m2)
              (length (hidden_layers m1)) Hlt) as [l Hl].
  apply parameter_map_hidden in Hl as [Hw _].
  pose proof (f_equal (.!! (hidden_prefix (length (hidden_layers m1))
                            +:+ "weight")) Hshapes) as Hk.
  unfold shapes in Hk. simpl in Hk.
  by rewrite !lookup_fmap, Hw, parameter_map_no_layer in Hk.
Qed.

(** For models as [Network] makes them: restoring the state dict of one
    model into another succeeds exactly when the two have the same
    architecture, and it then makes the second model equal to the first. *)
Theorem restore_iff_same_architecture (m1 m2 : network) :
  network_ok m1 = true → network_ok m2 = true →
  (is_Ok (load_state_dict_result m1 (state_dict m2))
   ↔ architecture m1 = architecture m2)
  ∧ (architecture m1 = architecture m2 →
     load_state_dict_result m1 (state_dict m2) = Ok m2).
Proof.
  intros Hok1 Hok2.
  assert (architecture m1 = architecture m2 → same_arch m1 m2) as Hsame.
  { unfold architecture. intros [= Hh Hi Ho Hd].
    assert (∀ l1 l2, Linear_ok l1 = true → Linear_ok l2 = true →
              in_features l1 = in_features l2 →
              out_features l1 = out_features l2 → same_Linear_arch l1 l2)
      as Hlin.
    { intros l1 l2. unfold Linear_ok, same_Linear_arch.
      rewrite !andb_true_iff, !bool_decide_eq_true.
      intros [-> ->] [-> ->] -> ->. done. }
    unfold same_arch. split_and!; [| |done].
    - apply Forall2_same_length_lookup_2.
      + by rewrite <-(length_fmap (λ l, (in_features l, out_features l))),
          Hh, length_fmap.
      + intros j l1 l2 Hl1 Hl2.
        pose proof (f_equal (.!! j) Hh) as Hj. simpl in Hj.
        rewrite !list_lookup_fmap, Hl1, Hl2 in Hj. injection Hj as ? ?.
        apply Hlin; eauto using network_ok_layers.
    - apply network_ok_inv in Hok1 as (? & ? & _ & _ & ? & _).
      apply network_ok_inv in Hok2 as (? & ? & _ & _ & ? & _).
      by apply Hlin. }
  split; [split|]; [|intros H; by rewrite restore_same_arch by auto
                    |intros H; by apply restore_same_arch; auto].
  unfold state_dict. intros Hshapes%restore_ok_iff.
  assert (length (hidden_layers m1) = length (hidden_layers m2)) as Hlen.
  { apply Nat.le_antisymm; by apply shapes_same_depth. }
  assert (∀ k, tshape <$> parameter_map m2 !! k
               = tshape <$> parameter_map m1 !! k) as Hk.
  { intros k. pose proof (f_equal (.!! k) Hshapes) as Hk.
    unfold shapes in Hk. simpl in Hk. by rewrite !lookup_fmap in Hk. }
  pose proof (network_ok_inv _ Hok1) as (l0 & ls & _ & _ & Hout1 & _ & Hd1).
  pose proof (network_ok_inv _ Hok2) as (l0' & ls' & _ & _ & Hout2 & _ & Hd2).
  unfold architecture. rewrite Hd1, Hd2. do 2 f_equal.
  - apply list_eq. intros j. rewrite !list_lookup_fmap.
    destruct (hidden_layers m1 !! j) as [l1|] eqn:Hl1,
             (hidden_layers m2 !! j) as [l2|] eqn:Hl2; simpl.
    + destruct (parameter_map_hidden _ _ _ Hl1) as [Hw1 _].
      destruct (parameter_map_hidden _ _ _ Hl2) as [Hw2 _].
      specialize (Hk (hidden_prefix j +:+ "weight")%string).
      rewrite Hw1, Hw2 in Hk. injection Hk as Hk.
      destruct (Linear_ok_shape l1 l2) as [-> ->];
        eauto using network_ok_layers.
    + apply lookup_lt_Some in Hl1. apply lookup_ge_None in Hl2. lia.
    + apply lookup_lt_Some in Hl2. apply lookup_ge_None in Hl1. lia.
    + done.
  - destruct (parameter_map_output m1) as [Hw1 _].
    destruct (parameter_map_output m2) as [Hw2 _].
    specialize (Hk ("output." +:+ "weight")%string).
    rewrite Hw1, Hw2 in Hk. injection Hk as Hk.
    by destruct (Linear_ok_shape (output m1) (output m2)) as [-> ->].
Qed.

Lemma restore_iff_same_architecture_witness :
  network_ok model_784_5_10 = true ∧ network_ok model_20_5_10 = true
  ∧ (is_Ok (load_state_dict_result model_784_5_10 (state_dict model_20_5_10))
     ↔ architecture model_784_5_10 = architecture model_20_5_10)
  ∧ (architecture model_784_5_10 = architecture model_20_5_10 →
     load_state_dict_result model_784_5_10 (state_dict model_20_5_10)
     = Ok model_20_5_10).
Proof.
  assert (network_ok model_784_5_10 = true) as H1 by reflexivity.
  assert (network_ok model_20_5_10 = true) as H2 by reflexivity.
  split; [exact H1|]. split; [exact H2|].
  exact (restore_iff_same_architecture model_784_5_10 model_20_5_10 H1 H2).
Defined.

Section Other_model.
Variable init : N → string → list nat → list Z.

(** The cell that restores into [Network(784, 10, [400, 200, 100])]
    raises for the state dict of every model of the architecture the
    notebook trained, whatever the values of its parameters: nothing is
    missing or unexpected, and the size mismatches are those of the
    notebook's traceback, every parameter but ['output.bias']. *)
Theorem restore_into_other_model_fails (model : network) (w : world) :
  network_ok model = true →
  architecture model = trained_architecture →
  ∃ mismatch,
    outcome (restore_into_other_model init (state_dict model) w)
    = Raise (RuntimeError_load_state_dict [] ∅ mismatch)
    ∧ (λ entry, entry.1.1) <$> mismatch = recorded_size_mismatches.
Proof.
  intros Hok Harch.
  destruct model as [hidden out d]. unfold architecture, trained_architecture in Harch.
  cbn [hidden_layers output dropout] in Harch.
  injection Harch as Hh Hi Ho ->.
  destruct hidden as [|[i0 o0 [sw0 dw0] [sb0 db0]]
                       [|[i1 o1 [sw1 dw1] [sb1 db1]]
                          [|[i2 o2 [sw2 dw2] [sb2 db2]] [|? ?]]]];
    try discriminate Hh.
  destruct out as [io oo [swo dwo] [sbo dbo]].
  unfold network_ok in Hok.
  cbn [hidden_layers output dropout chained] in Hok.
  unfold Linear_ok in Hok.
  cbn [in_features out_features weight bias tshape] in Hok.
  repeat match goal with
         | H : _ && _ = true |- _ => apply andb_true_iff in H as [? ?]
         | H : bool_decide _ = true |- _ => apply bool_decide_eq_true in H
         end.
  cbn [fmap list_fmap in_features out_features] in Hh, Hi, Ho.
  injection Hh as -> -> -> -> -> ->. subst.
  unfold restore_into_other_model, bind, Network, load_state_dict, outcome.
  cbn [fst snd].
  match goal with
  | |- ∃ mismatch, ?o = _ ∧ _ =>
      let v := eval vm_compute in o in
      assert (o = v) as -> by (vm_cast_no_check (eq_refl v))
  end.
  eexists. split; [reflexivity|]. vm_compute. reflexivity.
Qed.

End Other_model.

Lemma restore_into_other_model_fails_witness :
  network_ok model_784_512_256_128_10 = true
  ∧ architecture model_784_512_256_128_10 = trained_architecture
  ∧ ∃ mismatch,
      outcome (restore_into_other_model no_data
                 (state_dict model_784_512_256_128_10) world0)
      = Raise (RuntimeError_load_state_dict [] ∅ mismatch)
      ∧ (λ entry, entry.1.1) <$> mismatch = recorded_size_mismatches.
Proof.
  assert (network_ok model_784_512_256_128_10 = true) as H1
    by (vm_compute; reflexivity).
  assert (architecture model_784_512_256_128_10 = trained_architecture) as H2
    by (vm_compute; reflexivity).
  split; [exact H1|]. split; [exact H2|].
  exact (restore_into_other_model_fails no_data model_784_512_256_128_10
           world0 H1 H2).
Defined.

Section Other_keys.
Variable init : N → string → list nat → list Z.

(** What [load_checkpoint] computes from a record and the generator. *)
Lemma load_checkpoint_of_record (filepath : string) (w : world)
    (d : gmap string pyval) :
  fs w !! filepath = Some (PDict d) →
  outcome (load_checkpoint init filepath w)
  = try* input_size := subscript (PDict d) "input_size" in
    try* output_size := subscript (PDict d) "output_size" in
    try* hidden_layers := subscript (PDict d) "hidden_layers" in
    try* model := build_network init (rng w) input_size output_size
                    hidden_layers in
    try* state_dict := subscript (PDict d) "state_dict" in
    load_state_dict_result model state_dict.
Proof.
  intros Hw.
  unfold load_checkpoint, bind, torch_load, lift, Network, load_state_dict,
    outcome, bind_result.
  rewrite Hw. cbn [log fs rng fst snd].
  repeat case_match; simplify_eq/=; done.
Qed.

(** [load_checkpoint] looks at the four keys of a checkpoint record and at
    nothing else of it: two records that agree on these keys give the same
    model, or the same exception, whatever else they hold. *)
Theorem load_checkpoint_ignores_other_keys (filepath : string)
    (w w' : world) (d d' : gmap string pyval) :
  fs w !! filepath = Some (PDict d) →
  fs w' !! filepath = Some (PDict d') →
  rng w = rng w' →
  (∀ k, k ∈ checkpoint_keys → d !! k = d' !! k) →
  outcome (load_checkpoint init filepath w)
  = outcome (load_checkpoint init filepath w').
Proof.
  intros Hw Hw' Hrng Hkeys.
  rewrite (load_checkpoint_of_record filepath w d Hw).
  rewrite (load_checkpoint_of_record filepath w' d' Hw').
  cbn [subscript]. rewrite Hrng.
  rewrite !Hkeys by (unfold checkpoint_keys;
    rewrite !elem_of_union, !elem_of_singleton; tauto).
  reflexivity.
Qed.

End Other_keys.

Lemma load_checkpoint_ignores_other_keys_witness :
  outcome (load_checkpoint zero_init "checkpoint.pth"
             (world_with (PDict dict_20_5_10)))
  = outcome (load_checkpoint zero_init "checkpoint.pth"
               (world_with (PDict dict_with_epoch))).
Proof.
  apply (load_checkpoint_ignores_other_keys zero_init "checkpoint.pth"
           (world_with (PDict dict_20_5_10))
           (world_with (PDict dict_with_epoch))
           dict_20_5_10 dict_with_epoch).
  - reflexivity.
  - reflexivity.
  - reflexivity.
  - intros k Hk. unfold checkpoint_keys in Hk.
    rewrite !elem_of_union, !elem_of_singleton in Hk.
    unfold dict_with_epoch.
    destruct Hk as [[[->| ->]| ->]| ->]; by rewrite lookup_insert_ne.
Defined.

(** ** More about the training loop: examples *)

Lemma printed_line_counts_witness :
  (2 < 3)%nat
  ∧ length (epoch_lines 2 (printed (constant_loss_run 938))) = 24%nat.
Proof.
  split; [lia|].
  apply (printed_line_counts unit unit unit Q unit Q
           (λ _, 64%nat) (λ images _ _, images) (λ fw, fw) (λ _ _, tt)
           (λ _ _, 1%Q) (λ _ fw, fw) (λ fw, fw) (λ loss, loss)
           0%Q Qplus Qdiv_int (constant_loader 938) tt 2%nat ltac:(lia)).
  intros e'. apply length_replicate.
Defined.

Lemma epoch_line_content_witness :
  (2 < 3)%nat
  ∧ epoch_lines 2 (printed (constant_loss_run 938)) !! 24%nat = None.
Proof.
  split; [lia|].
  pose proof (epoch_line_content unit unit unit Q unit Q
                (λ _, 64%nat) (λ images _ _, images) (λ fw, fw) (λ _ _, tt)
                (λ _ _, 1%Q) (λ _ fw, fw) (λ fw, fw) (λ loss, loss)
                0%Q Qplus Qdiv_int (constant_loader 938) tt 2%nat 24%nat
                ltac:(lia)) as Hline.
  cbv zeta in Hline.
  rewrite decide_False in Hline by (vm_compute; lia).
  exact Hline.
Defined.
